(** * dsync over HTTP: the request side ([HTTPClient]) and the handler side
    ([HTTPRemoteHandler]) of [dsync/http.go], with the parts of Go's
    [net/url] and [net/http] they go through.

    Go strings and byte slices are sequences of bytes: both are [string]
    here (one [ascii] per byte), so [string(data)] and [[]byte(s)] are the
    identity. Maps ([map[string]string], [url.Values], header maps) are
    stdpp's [gmap]. A Go function returning [(T, error)] returns a pair with
    an [option error], [None] being [nil]. *)

From stdpp Require Import base option list strings gmap fin_maps pretty sorting.
From Stdlib Require Import ZArith NArith Ascii.

Local Open Scope Z_scope.

(** ** Errors *)

(** Go's [error] values as this package meets them. Two values are the same
    error only if they are the same variable or typed value; an error made on
    the spot by [fmt.Errorf] or [errors.New] carries nothing but its text and
    is never identical to a package variable, whatever its text. *)
Inductive error : Type :=
| ErrRemoveNotSupported
    (* the package variable of dsync.go *)
| typedError (name msg : string)
    (* another package variable or typed error of a collaborator, told apart
       by [name]: a store's not-found, [io.ErrUnexpectedEOF], ... *)
| errorString (msg : string).
    (* the value of [fmt.Errorf(...)] / [errors.New(...)] *)

Global Instance error_eq_dec : EqDecision error.
Proof. solve_decision. Defined.

(** An [io.Reader] read to its end: the bytes it delivers and the error that
    ends the reading, [None] for a clean end of file. *)
Record Reader : Type := mkReader {
  rd_data : string;
  rd_err : option error
}.

Definition bytes_NewBuffer (data : string) : Reader := mkReader data None.

(** [ioutil.ReadAll] *)
Definition ioutil_ReadAll (r : Reader) : string * option error :=
  (rd_data r, rd_err r).

(** A call that yields either a value or an error, never both. *)
Inductive result (A : Type) : Type :=
| ok (a : A)
| fail (e : error).
Global Arguments ok {A} a.
Global Arguments fail {A} e.

Global Instance result_ret : MRet result := λ A, ok.
Global Instance result_bind : MBind result := λ A B f r,
  match r with
  | ok a => f a
  | fail e => fail e
  end.

(** ** What http.go takes from outside

    The types of the [dag] package, the message of the sentinel declared in
    dsync.go, [encoding/json] and the syntax check of [net/url] are
    parameters of the whole development: every theorem holds whatever they
    are. [Info] and [Manifest] stand for the values of Go's [*dag.Info] and
    [*dag.Manifest]. *)
Class Externals : Type := {
  Info : Type;
  Manifest : Type;
  (* json.Marshal at *dag.Info and *dag.Manifest *)
  json_Marshal_Info : Info → result string;
  json_Marshal_Manifest : Manifest → result string;
  (* json.NewDecoder(r).Decode(v) with v a fresh &dag.Info{} / &dag.Manifest{}:
     the value v points to afterwards, and the error *)
  json_Decode_Info : Reader → Info * option error;
  json_Decode_Manifest : Reader → Manifest * option error;
  (* ErrRemoveNotSupported.Error() *)
  ErrRemoveNotSupported_text : string;
  (* the error url.Parse reports for a URL text, if it reports one *)
  url_syntax_error : string → option error;
  (* Go before 1.17 splits a query at ';' as well as at '&'; later releases
     drop a pair that holds a ';' *)
  semicolon_separator : bool
}.

(** [err.Error()] *)
Definition Error `{Externals} (e : error) : string :=
  match e with
  | ErrRemoveNotSupported => ErrRemoveNotSupported_text
  | typedError _ msg => msg
  | errorString msg => msg
  end.

(** [fmt.Errorf] with the format already filled in. *)
Definition fmt_Errorf (msg : string) : error := errorString msg.

(** The verbs of [fmt.Sprintf] this file uses: [%t] and [%d]. *)
Definition fmt_t (b : bool) : string := if b then "true" else "false".
Definition fmt_d (n : Z) : string := pretty n.

(** ** Strings *)

Fixpoint contains (p : ascii → bool) (s : string) : bool :=
  match s with
  | EmptyString => false
  | String c s' => p c || contains p s'
  end.

(** [strings.Cut(s, sep)] for a one-byte separator: the text before the first
    separator and the text after it; all of [s] and the empty text when there is none. *)
Fixpoint cut (p : ascii → bool) (s : string) : string * string :=
  match s with
  | EmptyString => (EmptyString, EmptyString)
  | String c s' =>
      if p c then (EmptyString, s')
      else let '(a, b) := cut p s' in (String c a, b)
  end.

(** The pieces between separators, in order; never the empty list. *)
Fixpoint split_on (p : ascii → bool) (s : string) : list string :=
  match s with
  | EmptyString => [EmptyString]
  | String c s' =>
      if p c then EmptyString :: split_on p s'
      else match split_on p s' with
           | piece :: pieces => String c piece :: pieces
           | [] => [String c EmptyString]
           end
  end.

Definition is_byte (c : ascii) : ascii → bool := Ascii.eqb c.

(** The bytes that structure a URL and its query. *)
Definition structural (c : ascii) : bool :=
  is_byte "&" c || is_byte ";" c || is_byte "=" c
  || is_byte "#" c || is_byte "?" c.

(** ** net/url *)
Module url.

(** [url.Values] *)
Abbreviation Values := (gmap string (list string)).

Definition Get (v : Values) (key : string) : string :=
  match v !! key with
  | Some (x :: _) => x
  | _ => EmptyString
  end.

Definition Set_ (v : Values) (key value : string) : Values :=
  <[key := [value]]> v.

Definition between (lo hi c : ascii) : bool :=
  (N_of_ascii lo <=? N_of_ascii c)%N && (N_of_ascii c <=? N_of_ascii hi)%N.

(** [shouldEscape(c, encodeQueryComponent)] *)
Definition shouldEscape (c : ascii) : bool :=
  if between "a" "z" c || between "A" "Z" c || between "0" "9" c then false
  else if is_byte "-" c || is_byte "_" c || is_byte "." c || is_byte "~" c
  then false
  else true.

Definition upperhex (n : N) : ascii :=
  if (n <? 10)%N then ascii_of_N (N_of_ascii "0" + n)
  else ascii_of_N (N_of_ascii "A" + (n - 10)).

Definition escape_byte (c : ascii) : string :=
  if shouldEscape c then
    if is_byte " " c then "+"
    else String "%" (String (upperhex (N_of_ascii c / 16))
                   (String (upperhex (N_of_ascii c mod 16)) EmptyString))
  else String c EmptyString.

Fixpoint QueryEscape (s : string) : string :=
  match s with
  | EmptyString => EmptyString
  | String c s' => escape_byte c +:+ QueryEscape s'
  end.

Definition ishex (c : ascii) : bool :=
  between "0" "9" c || between "a" "f" c || between "A" "F" c.

Definition unhex (c : ascii) : N :=
  if between "0" "9" c then N_of_ascii c - N_of_ascii "0"
  else if between "a" "f" c then N_of_ascii c - N_of_ascii "a" + 10
  else if between "A" "F" c then N_of_ascii c - N_of_ascii "A" + 10
  else 0.

(** [QueryUnescape]; [None] is its [EscapeError]. *)
Fixpoint QueryUnescape (s : string) : option string :=
  match s with
  | EmptyString => Some EmptyString
  | String c rest =>
      if is_byte "%" c then
        match rest with
        | String a (String b rest') =>
            if ishex a && ishex b
            then String (ascii_of_N (unhex a * 16 + unhex b)) <$> QueryUnescape rest'
            else None
        | _ => None
        end
      else if is_byte "+" c then String " " <$> QueryUnescape rest
      else String c <$> QueryUnescape rest
  end.

Section query.
Context `{Externals}.

Definition is_separator (c : ascii) : bool :=
  is_byte "&" c || (semicolon_separator && is_byte ";" c).

(** [m[key] = append(m[key], value)] *)
Definition appendValue (m : Values) (key value : string) : Values :=
  <[key := default [] (m !! key) ++ [value]]> m.

(** One turn of the loop of [parseQuery], on the pair it cut off. *)
Definition parsePair (m : Values) (pair : string) : Values :=
  if contains (is_byte ";") pair then m
  else if decide (pair = EmptyString) then m
  else
    let '(k, v) := cut (is_byte "=") pair in
    match QueryUnescape k with
    | None => m
    | Some key =>
        match QueryUnescape v with
        | None => m
        | Some value => appendValue m key value
        end
    end.

(** The [Values] of [ParseQuery]; its error is what [URL.Query] drops. *)
Definition ParseQuery (query : string) : Values :=
  foldl parsePair ∅ (split_on is_separator query).

End query.

(** A [Values] as [ParseQuery] and [Set] make them: no key with an empty list
    of values. *)
Definition populated (v : Values) : Prop := ∀ k, v !! k ≠ Some [].

(** The [key=value] pairs [Values.Encode] writes for one key. *)
Definition encodePairs (k : string) (vs : list string) : list string :=
  (λ x, QueryEscape k +:+ "=" +:+ QueryEscape x) <$> vs.

(** A text [QueryEscape] leaves as it is: letters, digits and the marks
    [-], [_], [.] and [~]. *)
Definition unreserved (s : string) : Prop := QueryEscape s = s.

(** [Values.Encode]: keys in byte order, pairs joined by '&'. *)
Definition Encode (v : Values) : string :=
  String.concat "&"
    (flat_map (λ k, encodePairs k (default [] (v !! k)))
              (merge_sort String.le (fst <$> map_to_list v))).

(** [url.URL]. What stands before the query (scheme, authority, path) is one
    text, [Prefix]: nothing here looks inside it. *)
Record URL : Type := mkURL {
  Prefix : string;
  ForceQuery : bool;
  RawQuery : string;
  Fragment : string
}.

Section parse.
Context `{Externals}.

(** [url.Parse]: the fragment is cut off at the first '#', then the query at
    the first '?'; a URL that ends in its only '?' has [ForceQuery]. *)
Definition Parse (rawURL : string) : result URL :=
  match url_syntax_error rawURL with
  | Some e => fail e
  | None =>
      let '(u, frag) := cut (is_byte "#") rawURL in
      let '(rest, query) := cut (is_byte "?") u in
      ok {| Prefix := rest;
            ForceQuery := contains (is_byte "?") u
                          && bool_decide (query = EmptyString);
            RawQuery := query;
            Fragment := frag |}
  end.

(** [u.Query()] *)
Definition Query (u : URL) : Values := ParseQuery (RawQuery u).

End parse.

(** [u.RawQuery = q] *)
Definition setRawQuery (u : URL) (q : string) : URL :=
  {| Prefix := Prefix u; ForceQuery := ForceQuery u;
     RawQuery := q; Fragment := Fragment u |}.

(** [u.String()] *)
Definition String_ (u : URL) : string :=
  Prefix u
  +:+ (if ForceQuery u || negb (bool_decide (RawQuery u = EmptyString))
       then "?" +:+ RawQuery u else EmptyString)
  +:+ (if bool_decide (Fragment u = EmptyString)
       then EmptyString else "#" +:+ Fragment u).

End url.

(** ** net/http *)
Module http.

Definition StatusOK : Z := 200.
Definition StatusBadRequest : Z := 400.
Definition StatusInternalServerError : Z := 500.

(** [http.Header], keyed by the names as this file spells them; both sides
    spell each name the same way. *)
Abbreviation Header := (gmap string string).

Record Request : Type := mkRequest {
  Method : string;
  URL : url.URL;
  ReqHeader : Header;
  ReqBody : Reader
}.

Record Response : Type := mkResponse {
  StatusCode : Z;
  ResHeader : Header;
  Body : Reader
}.

(** [req.Header.Set(key, value)] *)
Definition SetRequestHeader (key value : string) (req : Request) : Request :=
  {| Method := Method req; URL := URL req;
     ReqHeader := <[key := value]> (ReqHeader req); ReqBody := ReqBody req |}.

(** [res.Header.Get(key)] *)
Definition HeaderGet (h : Header) (key : string) : string :=
  default EmptyString (h !! key).

(** What [http.DefaultClient.Do] is to this file: a request goes out, and a
    response or an error comes back. *)
Definition RoundTripper : Type := Request → result Response.

Section request.
Context `{Externals}.

(** [http.NewRequest]; the methods this file passes are all valid, so the
    only error is the one of parsing the URL. *)
Definition NewRequest (method urlStr : string) (body : Reader) : result Request :=
  u ← url.Parse urlStr;
  mret {| Method := method; URL := u; ReqHeader := ∅; ReqBody := body |}.

(** [r.FormValue(key)]: the first value of [key] in the query of the URL.
    Go puts the fields of a form-encoded body before them; no request of
    [HTTPClient] has such a body, and a GET request has none at all. *)
Definition FormValue (r : Request) (key : string) : string :=
  url.Get (url.Query (URL r)) key.

End request.

(** [http.ResponseWriter]: the header map the handler fills, the status line
    and header once they are written, and the body written so far. *)
Record ResponseWriter : Type := mkResponseWriter {
  handlerHeader : Header;
  wroteHeader : option (Z * Header);
  written : string
}.

Definition NewResponseWriter : ResponseWriter :=
  {| handlerHeader := ∅; wroteHeader := None; written := EmptyString |}.

(** [w.Header().Set(key, value)] *)
Definition SetHeader (key value : string) (w : ResponseWriter) : ResponseWriter :=
  {| handlerHeader := <[key := value]> (handlerHeader w);
     wroteHeader := wroteHeader w; written := written w |}.

(** [w.WriteHeader(code)]: only the first call counts. *)
Definition WriteHeader (code : Z) (w : ResponseWriter) : ResponseWriter :=
  match wroteHeader w with
  | Some _ => w
  | None => {| handlerHeader := handlerHeader w;
               wroteHeader := Some (code, handlerHeader w);
               written := written w |}
  end.

(** [w.Write(data)]: writes the header with status 200 first if none is
    written yet. *)
Definition Write (data : string) (w : ResponseWriter) : ResponseWriter :=
  let w' := WriteHeader StatusOK w in
  {| handlerHeader := handlerHeader w'; wroteHeader := wroteHeader w';
     written := written w' +:+ data |}.

(** The response the client reads once the handler has returned. *)
Definition response (w : ResponseWriter) : Response :=
  let '(code, header) := default (StatusOK, handlerHeader w) (wroteHeader w) in
  {| StatusCode := code; ResHeader := header; Body := bytes_NewBuffer (written w) |}.

End http.

(** ** Package dsync *)

Definition newline : string := String (ascii_of_N 10) EmptyString.

(** Modelled from the spec: the status of a [ReceiveResponse], declared in
    dsync.go; the spec's per-block outcome is one of fatal failure, stored,
    retryable failure. *)
Inductive ReceiveResponseStatus : Type :=
| StatusErrored
| StatusOk
| StatusRetry.

Global Instance ReceiveResponseStatus_eq_dec : EqDecision ReceiveResponseStatus.
Proof. solve_decision. Defined.

(** [ReceiveResponse], by the three fields http.go fills and reads. *)
Record ReceiveResponse : Type := mkReceiveResponse {
  Hash : string;
  Status : ReceiveResponseStatus;
  Err : option error
}.

(** [HTTPClient] *)
Record HTTPClient : Type := mkHTTPClient {
  URL : string
}.

Section dsync.
Context `{Externals}.

(** [*Dsync], the receiving side, by the five methods the handler calls. The
    state of the receiver when the request arrives is inside the functions;
    the context argument is left out. *)
Record Dsync : Type := mkDsync {
  ds_NewReceiveSession :
    Info → bool → gmap string string → string * Manifest * option error;
  ds_ReceiveBlock : string → string → string → ReceiveResponse;
  ds_GetDagInfo : string → gmap string string → Info * option error;
  ds_GetBlock : string → string * option error;
  ds_RemoveCID : string → gmap string string → option error
}.

(** [json.NewEncoder(w).Encode(v)]: the text of [json.Marshal] and a newline,
    or the error and nothing written. *)
Definition json_Encode_Info (info : Info) : result string :=
  b ← json_Marshal_Info info; mret (b +:+ newline).
Definition json_Encode_Manifest (mfst : Manifest) : result string :=
  b ← json_Marshal_Manifest mfst; mret (b +:+ newline).

(** [for key, val := range meta { q.Set(key, val) }] *)
Definition setAll (q : url.Values) (meta : gmap string string) : url.Values :=
  map_fold (λ key val q, url.Set_ q key val) q meta.

(** The text the client takes from a response that is not 200:
<<
    var msg string
    if data, err := ioutil.ReadAll(res.Body); err == nil { msg = string(data) }
>> *)
Definition responseMessage (res : http.Response) : string :=
  match ioutil_ReadAll (http.Body res) with
  | (data, None) => data
  | (_, Some _) => EmptyString
  end.

(** *** The request side *)

(** The request [NewReceiveSession] builds, up to the call of
    [http.DefaultClient.Do]. *)
Definition newReceiveSessionRequest (rem : HTTPClient) (info : Info)
    (pinOnComplete : bool) (meta : gmap string string) : result http.Request :=
  buf ← json_Encode_Info info;
  u ← url.Parse (URL rem);
  let q := url.Query u in
  let q := url.Set_ q "pin" (fmt_t pinOnComplete) in
  let q := setAll q meta in
  let u := url.setRawQuery u (url.Encode q) in
  req ← http.NewRequest "POST" (url.String_ u) (bytes_NewBuffer buf);
  mret (http.SetRequestHeader "Content-Type" "application/json" req).

(** [NewReceiveSession]; a [nil] manifest is [None]. *)
Definition NewReceiveSession (Do : http.RoundTripper) (rem : HTTPClient)
    (info : Info) (pinOnComplete : bool) (meta : gmap string string)
    : string * option Manifest * option error :=
  match newReceiveSessionRequest rem info pinOnComplete meta with
  | fail e => (EmptyString, None, Some e)
  | ok req =>
      match Do req with
      | fail e => (EmptyString, None, Some e)
      | ok res =>
          if decide (http.StatusCode res ≠ http.StatusOK) then
            let msg := responseMessage res in
            (EmptyString, None,
             Some (fmt_Errorf ("remote response: "
                               +:+ fmt_d (http.StatusCode res) +:+ " " +:+ msg)))
          else
            let sid := http.HeaderGet (http.ResHeader res) "sid" in
            let '(diff, err) := json_Decode_Manifest (http.Body res) in
            (sid, Some diff, err)
      end
  end.

(** The request [ReceiveBlock] builds. *)
Definition receiveBlockRequest (rem : HTTPClient) (sid hash data : string)
    : result http.Request :=
  let url := URL rem +:+ "?sid=" +:+ sid +:+ "&hash=" +:+ hash in
  req ← http.NewRequest "PUT" url (bytes_NewBuffer data);
  mret (http.SetRequestHeader "Content-Type" "application/octet-stream" req).

(** [ReceiveBlock] *)
Definition ReceiveBlock (Do : http.RoundTripper) (rem : HTTPClient)
    (sid hash data : string) : ReceiveResponse :=
  match receiveBlockRequest rem sid hash data with
  | fail e => {| Hash := hash; Status := StatusErrored; Err := Some e |}
  | ok req =>
      match Do req with
      | fail e => {| Hash := hash; Status := StatusErrored; Err := Some e |}
      | ok res =>
          if decide (http.StatusCode res ≠ http.StatusOK) then
            let msg := responseMessage res in
            {| Hash := hash; Status := StatusErrored;
               Err := Some (fmt_Errorf ("remote error: "
                                        +:+ fmt_d (http.StatusCode res)
                                        +:+ " " +:+ msg)) |}
          else {| Hash := hash; Status := StatusOk; Err := None |}
      end
  end.

(** The request [GetDagInfo] builds. *)
Definition getDagInfoRequest (rem : HTTPClient) (id : string)
    (meta : gmap string string) : result http.Request :=
  u ← url.Parse (URL rem);
  let q := url.Query u in
  let q := url.Set_ q "manifest" id in
  let q := setAll q meta in
  let u := url.setRawQuery u (url.Encode q) in
  http.NewRequest "GET" (url.String_ u) (bytes_NewBuffer EmptyString).

(** [GetDagInfo]; a [nil] info is [None]. *)
Definition GetDagInfo (Do : http.RoundTripper) (rem : HTTPClient) (id : string)
    (meta : gmap string string) : option Info * option error :=
  match getDagInfoRequest rem id meta with
  | fail e => (None, Some e)
  | ok req =>
      match Do req with
      | fail e => (None, Some e)
      | ok res =>
          if decide (http.StatusCode res ≠ http.StatusOK) then
            let msg := responseMessage res in
            (None, Some (fmt_Errorf ("remote error: "
                                     +:+ fmt_d (http.StatusCode res)
                                     +:+ " " +:+ msg)))
          else
            let '(info, err) := json_Decode_Info (http.Body res) in
            (Some info, err)
      end
  end.

(** The request [GetBlock] builds. *)
Definition getBlockRequest (rem : HTTPClient) (id : string) : result http.Request :=
  let url := URL rem +:+ "?block=" +:+ id in
  http.NewRequest "GET" url (bytes_NewBuffer EmptyString).

(** [GetBlock]; [nil] data is the empty text. *)
Definition GetBlock (Do : http.RoundTripper) (rem : HTTPClient) (id : string)
    : string * option error :=
  match getBlockRequest rem id with
  | fail e => (EmptyString, Some e)
  | ok req =>
      match Do req with
      | fail e => (EmptyString, Some e)
      | ok res =>
          if decide (http.StatusCode res ≠ http.StatusOK) then
            let msg := responseMessage res in
            (EmptyString,
             Some (fmt_Errorf ("remote error: "
                               +:+ fmt_d (http.StatusCode res) +:+ " " +:+ msg)))
          else ioutil_ReadAll (http.Body res)
      end
  end.

(** The request [RemoveCID] builds. *)
Definition removeCIDRequest (rem : HTTPClient) (id : string)
    (meta : gmap string string) : result http.Request :=
  u ← url.Parse (URL rem);
  let q := url.Query u in
  let q := url.Set_ q "cid" id in
  let q := setAll q meta in
  let u := url.setRawQuery u (url.Encode q) in
  http.NewRequest "DELETE" (url.String_ u) (bytes_NewBuffer EmptyString).

(** [RemoveCID] *)
Definition RemoveCID (Do : http.RoundTripper) (rem : HTTPClient) (id : string)
    (meta : gmap string string) : option error :=
  match removeCIDRequest rem id meta with
  | fail e => Some e
  | ok req =>
      match Do req with
      | fail e => Some e
      | ok res =>
          if decide (http.StatusCode res ≠ http.StatusOK) then
            let msg := responseMessage res in
            if decide (msg = Error ErrRemoveNotSupported)
            then Some ErrRemoveNotSupported
            else Some (fmt_Errorf ("remote: " +:+ fmt_d (http.StatusCode res)
                                   +:+ " " +:+ msg))
          else None
      end
  end.

(** *** The handler side *)

(** A call of a method of the [Dsync] behind the handler, with its
    arguments. *)
Inductive DsyncCall : Type :=
| CallNewReceiveSession (info : Info) (pinOnComplete : bool)
    (meta : gmap string string)
| CallReceiveBlock (sid hash data : string)
| CallGetDagInfo (id : string) (meta : gmap string string)
| CallGetBlock (id : string)
| CallRemoveCID (id : string) (meta : gmap string string).

(** How a run of the handler ends: the response writer as the handler leaves
    it, the calls it made on the [Dsync], and whether it panicked (in which
    case net/http drops the connection instead of answering). *)
Record Handled : Type := mkHandled {
  hw : http.ResponseWriter;
  hcalls : list DsyncCall;
  hpanic : bool
}.

Definition returned (calls : list DsyncCall) (w : http.ResponseWriter) : Handled :=
  {| hw := w; hcalls := calls; hpanic := false |}.
Definition panicked (calls : list DsyncCall) (w : http.ResponseWriter) : Handled :=
  {| hw := w; hcalls := calls; hpanic := true |}.

(** The loop the handler runs over the query of the request:
<<
    meta := map[string]string{}
    for key := range r.URL.Query() {
      if key != reserved { meta[key] = r.URL.Query().Get(key) }
    }
>> *)
Definition metaOfQuery (reserved : string) (q : url.Values) : gmap string string :=
  map_imap (λ key _, if decide (key = reserved) then None
                     else Some (url.Get q key)) q.

(** [w.WriteHeader(code); w.Write([]byte(err.Error()))]. A [nil] error is
    dereferenced after the status is set: the handler panics there. *)
Definition writeError (code : Z) (err : option error) (calls : list DsyncCall)
    (w : http.ResponseWriter) : Handled :=
  let w := http.WriteHeader code w in
  match err with
  | Some e => returned calls (http.Write (Error e) w)
  | None => panicked calls w
  end.

Definition handlePOST (ds : Dsync) (r : http.Request) (w : http.ResponseWriter)
    : Handled :=
  let '(info, err) := json_Decode_Info (http.ReqBody r) in
  match err with
  | Some e => writeError http.StatusBadRequest (Some e) [] w
  | None =>
      (* info is the pointer to a fresh dag.Info: the test [info == nil] that
         follows in the source is never true *)
      let pinOnComplete := bool_decide (http.FormValue r "pin" = "true") in
      let meta := metaOfQuery "pin" (url.Query (http.URL r)) in
      let calls := [CallNewReceiveSession info pinOnComplete meta] in
      let '(sid, diff, err) := ds_NewReceiveSession ds info pinOnComplete meta in
      match err with
      | Some e => writeError http.StatusBadRequest (Some e) calls w
      | None =>
          let w := http.SetHeader "sid" sid w in
          let w := http.SetHeader "Content-Type" "application/json" w in
          match json_Encode_Manifest diff with
          | ok b => returned calls (http.Write b w)
          | fail _ => returned calls w
          end
      end
  end.

Definition handlePUT (ds : Dsync) (r : http.Request) (w : http.ResponseWriter)
    : Handled :=
  let '(data, err) := ioutil_ReadAll (http.ReqBody r) in
  match err with
  | Some e => writeError http.StatusBadRequest (Some e) [] w
  | None =>
      let sid := http.FormValue r "sid" in
      let hash := http.FormValue r "hash" in
      let calls := [CallReceiveBlock sid hash data] in
      let res := ds_ReceiveBlock ds sid hash data in
      if decide (Status res = StatusErrored) then
        writeError http.StatusInternalServerError (Err res) calls w
      else if decide (Status res = StatusRetry) then
        writeError http.StatusBadRequest (Err res) calls w
      else returned calls (http.WriteHeader http.StatusOK w)
  end.

Definition handleGET (ds : Dsync) (r : http.Request) (w : http.ResponseWriter)
    : Handled :=
  let mfstID := http.FormValue r "manifest" in
  let blockID := http.FormValue r "block" in
  if decide (mfstID = EmptyString ∧ blockID = EmptyString) then
    returned []
      (http.Write "either manifest or block query params are required"
         (http.WriteHeader http.StatusBadRequest w))
  else if decide (mfstID ≠ EmptyString) then
    let meta := metaOfQuery "manifest" (url.Query (http.URL r)) in
    let calls := [CallGetDagInfo mfstID meta] in
    let '(mfst, err) := ds_GetDagInfo ds mfstID meta in
    match err with
    | Some e => writeError http.StatusInternalServerError (Some e) calls w
    | None =>
        match json_Marshal_Info mfst with
        | fail e => writeError http.StatusInternalServerError (Some e) calls w
        | ok data =>
            let w := http.SetHeader "Content-Type" "application/json" w in
            returned calls (http.Write data w)
        end
    end
  else
    let calls := [CallGetBlock blockID] in
    let '(data, err) := ds_GetBlock ds blockID in
    match err with
    | Some e => writeError http.StatusInternalServerError (Some e) calls w
    | None =>
        let w := http.SetHeader "Content-Type" "application/octet-stream" w in
        returned calls (http.Write data w)
    end.

Definition handleDELETE (ds : Dsync) (r : http.Request) (w : http.ResponseWriter)
    : Handled :=
  let cid := http.FormValue r "cid" in
  let meta := metaOfQuery "cid" (url.Query (http.URL r)) in
  let calls := [CallRemoveCID cid meta] in
  match ds_RemoveCID ds cid meta with
  | Some e => writeError http.StatusInternalServerError (Some e) calls w
  | None => returned calls (http.WriteHeader http.StatusOK w)
  end.

(** [HTTPRemoteHandler(ds)] run on one request with a fresh response
    writer. *)
Definition HTTPRemoteHandler (ds : Dsync) (r : http.Request) : Handled :=
  let w := http.NewResponseWriter in
  if decide (http.Method r = "POST") then handlePOST ds r w
  else if decide (http.Method r = "PUT") then handlePUT ds r w
  else if decide (http.Method r = "GET") then handleGET ds r w
  else if decide (http.Method r = "DELETE") then handleDELETE ds r w
  else returned [] w.

(** The status code the handler has written, if it has written one. *)
Definition statusWritten (h : Handled) : option Z :=
  fst <$> http.wroteHeader (hw h).

(** The client bound to a handler with nothing in between: the request the
    client builds is the request the handler sees, and the response the
    handler leaves is the one the client reads. A handler that panics
    answers nothing and the client's [Do] fails. *)
Definition serve (ds : Dsync) : http.RoundTripper := λ req,
  let h := HTTPRemoteHandler ds req in
  if hpanic h then fail (errorString "EOF")
  else ok (http.response (hw h)).

End dsync.

(** ** Reading the log of calls *)

Section calls.
Context `{Externals}.

(** The method of the request on which the handler makes a call. *)
Definition callMethod (c : DsyncCall) : string :=
  match c with
  | CallNewReceiveSession _ _ _ => "POST"
  | CallReceiveBlock _ _ _ => "PUT"
  | CallGetDagInfo _ _ | CallGetBlock _ => "GET"
  | CallRemoveCID _ _ => "DELETE"
  end.

(** The metadata a call hands to the [Dsync], with the query key the
    operation keeps for itself; [None] for the calls without metadata. *)
Definition callMeta (c : DsyncCall) : option (string * gmap string string) :=
  match c with
  | CallNewReceiveSession _ _ meta => Some ("pin", meta)
  | CallGetDagInfo _ meta => Some ("manifest", meta)
  | CallRemoveCID _ meta => Some ("cid", meta)
  | CallReceiveBlock _ _ _ | CallGetBlock _ => None
  end.

End calls.

(** ** A concrete setting, for examples

    Infos and manifests that are their own JSON text, the message of the
    sentinel as dsync.go spells it, and the one syntax check of [url.Parse]
    that looks at every byte: no ASCII control character. *)
Definition isCTLByte (c : ascii) : bool :=
  (N_of_ascii c <? 32)%N || (N_of_ascii c =? 127)%N.

Definition exampleExternals : Externals := {|
  Info := string;
  Manifest := string;
  json_Marshal_Info := ok;
  json_Marshal_Manifest := ok;
  json_Decode_Info := λ r, (rd_data r, rd_err r);
  json_Decode_Manifest := λ r, (rd_data r, rd_err r);
  ErrRemoveNotSupported_text := "remove is not supported";
  url_syntax_error := λ rawURL,
    if contains isCTLByte rawURL
    then Some (errorString "net/url: invalid control character in URL")
    else None;
  semicolon_separator := false
|}.

Section examples.
Local Existing Instance exampleExternals.

Definition exampleClient : HTTPClient := {| URL := "http://remote/dsync" |}.

(** A client whose URL carries a query parameter of its own. *)
Definition tokenClient : HTTPClient := {| URL := "http://remote/dsync?token=abc" |}.

(** A receiver that stores every block, knows every DAG and block, and
    removes what it is asked to. *)
Definition exampleDsync : Dsync := {|
  ds_NewReceiveSession := λ info pinOnComplete meta, ("session-1", info, None);
  ds_ReceiveBlock := λ sid hash data,
    {| Hash := hash; Status := StatusOk; Err := None |};
  ds_GetDagInfo := λ id meta, ("{}", None);
  ds_GetBlock := λ id, ("block", None);
  ds_RemoveCID := λ id meta, None
|}.

(** Receivers that differ from [exampleDsync] in one method. *)
Definition withReceiveBlock (f : string → string → string → ReceiveResponse)
    : Dsync :=
  {| ds_NewReceiveSession := ds_NewReceiveSession exampleDsync;
     ds_ReceiveBlock := f;
     ds_GetDagInfo := ds_GetDagInfo exampleDsync;
     ds_GetBlock := ds_GetBlock exampleDsync;
     ds_RemoveCID := ds_RemoveCID exampleDsync |}.

Definition withRemoveCID (f : string → gmap string string → option error)
    : Dsync :=
  {| ds_NewReceiveSession := ds_NewReceiveSession exampleDsync;
     ds_ReceiveBlock := ds_ReceiveBlock exampleDsync;
     ds_GetDagInfo := ds_GetDagInfo exampleDsync;
     ds_GetBlock := ds_GetBlock exampleDsync;
     ds_RemoveCID := f |}.

(** A receiver that asks for every block to be sent again. *)
Definition busyDsync : Dsync :=
  withReceiveBlock (λ sid hash data,
    {| Hash := hash; Status := StatusRetry; Err := Some (errorString "busy") |}).

(** A receiver that rejects every block for good. *)
Definition rejectingDsync : Dsync :=
  withReceiveBlock (λ sid hash data,
    {| Hash := hash; Status := StatusErrored;
       Err := Some (errorString "hash mismatch") |}).

(** A receiver that cannot remove. *)
Definition keepingDsync : Dsync :=
  withRemoveCID (λ id meta, Some ErrRemoveNotSupported).

(** A receiver whose remove fails with an error of its own that reads like
    the sentinel. *)
Definition soundalikeDsync : Dsync :=
  withRemoveCID (λ id meta, Some (errorString "remove is not supported")).

(** A receiver whose remove fails for a reason of its own. *)
Definition failingRemoveDsync : Dsync :=
  withRemoveCID (λ id meta, Some (errorString "disk full")).

(** A receiver with an empty store: every identifier is unknown, which its
    store reports by a typed error. *)
Definition ErrNotFound : error := typedError "ErrNotFound" "not found".

Definition emptyDsync : Dsync := {|
  ds_NewReceiveSession := ds_NewReceiveSession exampleDsync;
  ds_ReceiveBlock := ds_ReceiveBlock exampleDsync;
  ds_GetDagInfo := λ id meta, (EmptyString, Some ErrNotFound);
  ds_GetBlock := λ id, (EmptyString, Some ErrNotFound);
  ds_RemoveCID := ds_RemoveCID exampleDsync
|}.

(** A remote that answers every request with the same response. *)
Definition answering (code : Z) (body : string) : http.RoundTripper :=
  λ _, ok {| http.StatusCode := code; http.ResHeader := ∅;
             http.Body := bytes_NewBuffer body |}.

(** A request to [http://remote/dsync], by its method, raw query, header
    and body. *)
Definition exampleRequest (method rawQuery : string) (header : http.Header)
    (body : string) : http.Request :=
  {| http.Method := method;
     http.URL := {| url.Prefix := "http://remote/dsync"; url.ForceQuery := false;
                    url.RawQuery := rawQuery; url.Fragment := EmptyString |};
     http.ReqHeader := header;
     http.ReqBody := bytes_NewBuffer body |}.

(** The client's URL as [url.Parse] reads it. *)
Definition exampleURL : url.URL :=
  {| url.Prefix := "http://remote/dsync"; url.ForceQuery := false;
     url.RawQuery := EmptyString; url.Fragment := EmptyString |}.

(** A receiver that opens no session. *)
Definition refusingDsync : Dsync := {|
  ds_NewReceiveSession := λ info pinOnComplete meta,
    ("session-0", info, Some (errorString "quota exceeded"));
  ds_ReceiveBlock := ds_ReceiveBlock exampleDsync;
  ds_GetDagInfo := ds_GetDagInfo exampleDsync;
  ds_GetBlock := ds_GetBlock exampleDsync;
  ds_RemoveCID := ds_RemoveCID exampleDsync
|}.

(** A remote that cannot be reached. *)
Definition ErrConnectionRefused : error :=
  typedError "ECONNREFUSED" "connection refused".

Definition unreachable : http.RoundTripper := λ _, fail ErrConnectionRefused.

End examples.

(** * Facts *)

(** ** Strings *)

Ltac each_byte c :=
  destruct c as [[] [] [] [] [] [] [] []]; reflexivity.

Lemma contains_app p s t :
  contains p (s +:+ t) = contains p s || contains p t.
Proof.
  induction s as [|c s IH]; simpl; [done|].
  by rewrite IH, orb_assoc.
Qed.

Lemma cut_at p a c b :
  contains p a = false → p c = true → cut p (a +:+ String c b) = (a, b).
Proof.
  intros Ha Hc. induction a as [|x a IH]; simpl in *.
  - by rewrite Hc.
  - apply orb_false_elim in Ha as [Hx Ha]. by rewrite Hx, (IH Ha).
Qed.

Lemma cut_none p s :
  contains p s = false → cut p s = (s, EmptyString).
Proof.
  induction s as [|x s IH]; simpl; [done|].
  intros [Hx Hs]%orb_false_elim. by rewrite Hx, (IH Hs).
Qed.

Lemma cut_fst_clean p s : contains p (cut p s).1 = false.
Proof.
  induction s as [|x s IH]; simpl; [done|].
  destruct (p x) eqn:Hx; [done|].
  destruct (cut p s) as [a b]. simpl in *. by rewrite Hx, IH.
Qed.

Lemma cut_fst_keeps_clean p q s :
  contains q s = false → contains q (cut p s).1 = false.
Proof.
  induction s as [|x s IH]; simpl; [done|].
  intros [Hx Hs]%orb_false_elim.
  destruct (p x); [done|].
  specialize (IH Hs). destruct (cut p s) as [a b]. simpl in *.
  by rewrite Hx, IH.
Qed.

Lemma split_on_clean p s :
  contains p s = false → split_on p s = [s].
Proof.
  induction s as [|x s IH]; simpl; [done|].
  intros [Hx Hs]%orb_false_elim. by rewrite Hx, (IH Hs).
Qed.

Lemma split_on_app p a c rest :
  contains p a = false → p c = true →
  split_on p (a +:+ String c rest) = a :: split_on p rest.
Proof.
  intros Ha Hc. induction a as [|x a IH]; simpl in *.
  - by rewrite Hc.
  - apply orb_false_elim in Ha as [Hx Ha]. by rewrite Hx, (IH Ha).
Qed.

(** Joining pieces that hold no separator and splitting again gives the
    pieces back. *)
Lemma split_on_concat p c piece pieces :
  p c = true →
  Forall (λ s, contains p s = false) (piece :: pieces) →
  split_on p (String.concat (String c EmptyString) (piece :: pieces))
  = piece :: pieces.
Proof.
  intros Hc. revert piece.
  induction pieces as [|y ys IH]; intros piece Hall.
  - simpl. apply split_on_clean. by inversion Hall.
  - inversion Hall as [|? ? Hpiece Hrest]; subst.
    change (String.concat (String c EmptyString) (piece :: y :: ys))
      with (piece +:+ String c (String.concat (String c EmptyString) (y :: ys))).
    rewrite split_on_app by done. by rewrite IH.
Qed.

(** ** Escaping *)

Lemma QueryUnescape_escape_byte c s :
  url.QueryUnescape (url.escape_byte c +:+ s)
  = String c <$> url.QueryUnescape s.
Proof. each_byte c. Qed.

Lemma QueryUnescape_QueryEscape s :
  url.QueryUnescape (url.QueryEscape s) = Some s.
Proof.
  induction s as [|c s IH]; [done|].
  simpl url.QueryEscape. by rewrite QueryUnescape_escape_byte, IH.
Qed.

(** No structural byte comes out of [QueryEscape]. *)
Lemma escape_byte_structural c :
  contains structural (url.escape_byte c) = false.
Proof. each_byte c. Qed.

Lemma QueryEscape_structural s :
  contains structural (url.QueryEscape s) = false.
Proof.
  induction s as [|c s IH]; [done|].
  simpl url.QueryEscape. by rewrite contains_app, escape_byte_structural, IH.
Qed.

Lemma contains_weaken (p q : ascii → bool) s :
  (∀ c, p c = true → q c = true) →
  contains q s = false → contains p s = false.
Proof.
  intros Hpq. induction s as [|c s IH]; simpl; [done|].
  intros [Hc Hs]%orb_false_elim. rewrite (IH Hs), orb_false_r.
  destruct (p c) eqn:Hp; [|done]. by rewrite (Hpq _ Hp) in Hc.
Qed.

(** ** Queries: [ParseQuery] undoes [Encode] *)

Section query_facts.
Context `{Externals}.

Lemma is_separator_structural c :
  url.is_separator c = true → structural c = true.
Proof.
  unfold url.is_separator, structural.
  destruct (is_byte "&" c), (is_byte ";" c), semicolon_separator; simpl; done.
Qed.

Lemma QueryEscape_no_separator s :
  contains url.is_separator (url.QueryEscape s) = false.
Proof.
  apply (contains_weaken _ structural); [|apply QueryEscape_structural].
  apply is_separator_structural.
Qed.

Lemma QueryEscape_no_byte b s :
  structural b = true → contains (is_byte b) (url.QueryEscape s) = false.
Proof.
  intros Hb. apply (contains_weaken _ structural); [|apply QueryEscape_structural].
  intros c Hc. apply Ascii.eqb_eq in Hc. by subst.
Qed.

Lemma encoded_pair_clean k x :
  contains url.is_separator
    (url.QueryEscape k +:+ "=" +:+ url.QueryEscape x) = false.
Proof.
  rewrite !contains_app, !QueryEscape_no_separator. simpl.
  unfold url.is_separator. simpl. by rewrite andb_false_r.
Qed.

Lemma parsePair_encoded m k x :
  url.parsePair m (url.QueryEscape k +:+ "=" +:+ url.QueryEscape x)
  = url.appendValue m k x.
Proof.
  unfold url.parsePair.
  rewrite !contains_app, !(QueryEscape_no_byte ";") by done. simpl.
  destruct (decide _) as [Hempty|_].
  { exfalso. destruct (url.QueryEscape k); discriminate. }
  change (url.QueryEscape k +:+ "=" +:+ url.QueryEscape x)
    with (url.QueryEscape k +:+ String "=" (url.QueryEscape x)).
  rewrite cut_at by (done || by apply QueryEscape_no_byte).
  by rewrite !QueryUnescape_QueryEscape.
Qed.

Lemma foldl_parsePair_encodePairs m k xs :
  foldl url.parsePair m (url.encodePairs k xs)
  = foldl (λ m x, url.appendValue m k x) m xs.
Proof.
  revert m. induction xs as [|x xs IH]; intros m; [done|].
  simpl. by rewrite parsePair_encoded, IH.
Qed.

Lemma foldl_parsePair_flat_map (vs : string → list string) m keys :
  foldl url.parsePair m (flat_map (λ k, url.encodePairs k (vs k)) keys)
  = foldl (λ m k, foldl (λ m x, url.appendValue m k x) m (vs k)) m keys.
Proof.
  revert m. induction keys as [|k keys IH]; intros m; [done|].
  simpl. by rewrite foldl_app, foldl_parsePair_encodePairs, IH.
Qed.

Lemma encodePairs_clean k xs :
  Forall (λ s, contains url.is_separator s = false) (url.encodePairs k xs).
Proof.
  apply Forall_fmap, Forall_forall. intros x _. apply encoded_pair_clean.
Qed.

Lemma ParseQuery_concat pieces :
  Forall (λ s, contains url.is_separator s = false) pieces →
  url.ParseQuery (String.concat "&" pieces) = foldl url.parsePair ∅ pieces.
Proof.
  intros Hclean. unfold url.ParseQuery.
  destruct pieces as [|piece pieces]; [done|].
  rewrite split_on_concat; [done| |done].
  unfold url.is_separator. done.
Qed.

Lemma foldl_appendValue_lookup (m : url.Values) k xs j :
  foldl (λ m x, url.appendValue m k x) m xs !! j
  = if decide (j = k)
    then match xs with
         | [] => m !! k
         | _ => Some (default [] (m !! k) ++ xs)
         end
    else m !! j.
Proof.
  revert m. induction xs as [|x xs IH]; intros m; simpl.
  - by case_decide; subst.
  - rewrite IH. unfold url.appendValue. case_decide; subst.
    + rewrite lookup_insert_eq. simpl.
      destruct xs; [done|]. by rewrite <-app_assoc.
    + by rewrite lookup_insert_ne.
Qed.

Lemma foldl_keys_lookup (v m : url.Values) keys j :
  NoDup keys →
  foldl (λ m k, foldl (λ m x, url.appendValue m k x) m (default [] (v !! k)))
        m keys !! j
  = if decide (j ∈ keys)
    then match default [] (v !! j) with
         | [] => m !! j
         | xs => Some (default [] (m !! j) ++ xs)
         end
    else m !! j.
Proof.
  revert m. induction keys as [|k keys IH]; intros m Hnodup.
  - by rewrite decide_False by apply not_elem_of_nil.
  - apply NoDup_cons in Hnodup as [Hk Hnodup].
    cbn [foldl]. rewrite IH by done. rewrite !foldl_appendValue_lookup.
    destruct (decide (j = k)) as [->|Hjk].
    + rewrite (decide_False (P := k ∈ keys)) by done.
      rewrite (decide_True (P := k ∈ k :: keys)) by (apply elem_of_cons; auto).
      by destruct (default [] (v !! k)).
    + destruct (decide (j ∈ keys)).
      * by rewrite (decide_True (P := j ∈ k :: keys)) by (apply elem_of_cons; auto).
      * by rewrite (decide_False (P := j ∈ k :: keys))
          by (rewrite elem_of_cons; intros [?|?]; done).
Qed.

Lemma ParseQuery_Encode (v : url.Values) :
  url.populated v → url.ParseQuery (url.Encode v) = v.
Proof.
  intros Hpop. unfold url.Encode.
  rewrite ParseQuery_concat.
  2:{ apply Forall_flat_map, Forall_forall. intros k _. apply encodePairs_clean. }
  rewrite (foldl_parsePair_flat_map (λ k, default [] (v !! k))).
  apply map_eq. intros j.
  rewrite foldl_keys_lookup.
  2:{ rewrite merge_sort_Permutation. apply NoDup_fst_map_to_list. }
  rewrite lookup_empty. simpl.
  destruct (decide _) as [Hin|Hnin].
  - rewrite merge_sort_Permutation in Hin.
    apply list_elem_of_fmap in Hin as [[k xs] [-> Hin]].
    apply elem_of_map_to_list in Hin. simpl. rewrite Hin. simpl.
    destruct xs; [by apply Hpop in Hin|done].
  - destruct (v !! j) as [xs|] eqn:Hj; [|done].
    exfalso. apply Hnin. rewrite merge_sort_Permutation.
    apply list_elem_of_fmap. exists (j, xs). split; [done|].
    by apply elem_of_map_to_list.
Qed.

(** [ParseQuery] and [Set] give populated values. *)
Lemma appendValue_populated m k x :
  url.populated m → url.populated (url.appendValue m k x).
Proof.
  intros Hm j. unfold url.appendValue.
  destruct (decide (j = k)) as [->|].
  - rewrite lookup_insert_eq. intros [=Heq]. by destruct (default [] (m !! k)).
  - rewrite lookup_insert_ne by done. apply Hm.
Qed.

Lemma parsePair_populated m pair :
  url.populated m → url.populated (url.parsePair m pair).
Proof.
  intros Hm. unfold url.parsePair.
  repeat (case_match; try done). by apply appendValue_populated.
Qed.

Lemma ParseQuery_populated query : url.populated (url.ParseQuery query).
Proof.
  unfold url.ParseQuery.
  assert (url.populated (∅ : url.Values)) as Hempty by (intros k; by rewrite lookup_empty).
  revert Hempty. generalize (∅ : url.Values).
  induction (split_on url.is_separator query) as [|p ps IH]; intros m Hm; [done|].
  simpl. by apply IH, parsePair_populated.
Qed.

Lemma Set_populated q k x : url.populated q → url.populated (url.Set_ q k x).
Proof.
  intros Hq j. unfold url.Set_.
  destruct (decide (j = k)) as [->|].
  - by rewrite lookup_insert_eq.
  - rewrite lookup_insert_ne by done. apply Hq.
Qed.

(** The loop that sets every entry of [meta] amounts to laying [meta] over the
    query. *)
Lemma setAll_union (q : url.Values) (meta : gmap string string) :
  setAll q meta = ((λ x, [x]) <$> meta) ∪ q.
Proof.
  unfold setAll.
  induction meta as [|k x meta Hk Hfold IH] using map_first_key_ind.
  - by rewrite map_fold_empty, fmap_empty, (left_id_L ∅ (∪)).
  - rewrite map_fold_insert_first_key by done.
    rewrite IH. unfold url.Set_. by rewrite fmap_insert, insert_union_l.
Qed.

Lemma setAll_lookup (q : url.Values) (meta : gmap string string) k :
  setAll q meta !! k
  = match meta !! k with
    | Some x => Some [x]
    | None => q !! k
    end.
Proof.
  rewrite setAll_union, lookup_union, lookup_fmap.
  destruct (meta !! k); simpl; [|by rewrite (left_id_L None _)].
  by destruct (q !! k).
Qed.

Lemma setAll_populated q meta : url.populated q → url.populated (setAll q meta).
Proof.
  intros Hq k. rewrite setAll_lookup. destruct (meta !! k); [done|apply Hq].
Qed.

End query_facts.

(** ** URLs: the query survives [String] and a second [Parse] *)

Lemma string_app_assoc (a b c : string) : (a +:+ b) +:+ c = a +:+ b +:+ c.
Proof.
  induction a as [|x a IH]; [done|].
  change (String x ((a +:+ b) +:+ c) = String x (a +:+ b +:+ c)). by rewrite IH.
Qed.

Lemma string_app_empty_r (a : string) : a +:+ EmptyString = a.
Proof.
  induction a as [|x a IH]; [done|].
  change (String x (a +:+ EmptyString) = String x a). by rewrite IH.
Qed.

Section url_facts.
Context `{Externals}.

Lemma Parse_Prefix_clean rawURL u :
  url.Parse rawURL = ok u →
  contains (is_byte "#") (url.Prefix u) = false
  ∧ contains (is_byte "?") (url.Prefix u) = false.
Proof.
  unfold url.Parse. destruct (url_syntax_error rawURL); [done|].
  pose proof (cut_fst_clean (is_byte "#") rawURL) as Hfrag.
  destruct (cut (is_byte "#") rawURL) as [rest frag]. simpl in Hfrag.
  pose proof (cut_fst_clean (is_byte "?") rest) as Hquery.
  pose proof (cut_fst_keeps_clean (is_byte "?") (is_byte "#") rest Hfrag) as Hkeep.
  destruct (cut (is_byte "?") rest) as [prefix query]. simpl in *.
  intros [= <-]. done.
Qed.

Lemma Parse_RawQuery rawURL u :
  url.Parse rawURL = ok u →
  url.RawQuery u = (cut (is_byte "?") (cut (is_byte "#") rawURL).1).2.
Proof.
  unfold url.Parse. destruct (url_syntax_error rawURL); [done|].
  destruct (cut (is_byte "#") rawURL) as [rest frag]. simpl.
  destruct (cut (is_byte "?") rest) as [prefix query]. simpl.
  by intros [= <-].
Qed.

Lemma Parse_String_RawQuery u raw u' :
  contains (is_byte "#") (url.Prefix u) = false →
  contains (is_byte "?") (url.Prefix u) = false →
  contains (is_byte "#") raw = false →
  url.Parse (url.String_ (url.setRawQuery u raw)) = ok u' →
  url.RawQuery u' = raw.
Proof.
  intros Hp1 Hp2 Hraw Hparse. rewrite (Parse_RawQuery _ _ Hparse).
  unfold url.String_, url.setRawQuery. simpl.
  set (Q := if url.ForceQuery u || negb (bool_decide (raw = EmptyString))
            then "?" +:+ raw else EmptyString).
  assert (contains (is_byte "#") (url.Prefix u +:+ Q) = false) as HQ.
  { rewrite contains_app, Hp1. unfold Q. by destruct (_ || _). }
  assert (cut (is_byte "?") (url.Prefix u +:+ Q) = (url.Prefix u, raw)) as Hcut.
  { unfold Q. destruct (url.ForceQuery u || _) eqn:Hforce.
    - by apply cut_at.
    - apply orb_false_elim in Hforce as [_ Hempty].
      apply negb_false_iff, bool_decide_eq_true in Hempty. subst raw.
      rewrite string_app_empty_r. by apply cut_none. }
  case_bool_decide.
  - rewrite string_app_empty_r, (cut_none (is_byte "#")) by done.
    simpl. by rewrite Hcut.
  - change ("#" +:+ url.Fragment u) with (String "#" (url.Fragment u)).
    rewrite <-string_app_assoc, (cut_at (is_byte "#")) by done.
    simpl. by rewrite Hcut.
Qed.

Lemma contains_concat p sep pieces :
  contains p sep = false →
  Forall (λ s, contains p s = false) pieces →
  contains p (String.concat sep pieces) = false.
Proof.
  intros Hsep. induction 1 as [|piece pieces Hpiece Hrest IH]; [done|].
  destruct pieces as [|next pieces]; [done|].
  change (String.concat sep (piece :: next :: pieces))
    with (piece +:+ sep +:+ String.concat sep (next :: pieces)).
  by rewrite !contains_app, Hpiece, Hsep, IH.
Qed.

Lemma Encode_no_hash (q : url.Values) :
  contains (is_byte "#") (url.Encode q) = false.
Proof.
  apply contains_concat; [done|].
  apply Forall_flat_map, Forall_forall. intros k _.
  apply Forall_fmap, Forall_forall. intros x _. simpl.
  by rewrite !contains_app, !(QueryEscape_no_byte "#").
Qed.

(** The request built from a parsed URL whose query is replaced by the
    encoding of [q] carries exactly [q]. *)
Lemma NewRequest_encoded method rawURL u (q : url.Values) body req :
  url.Parse rawURL = ok u →
  url.populated q →
  http.NewRequest method (url.String_ (url.setRawQuery u (url.Encode q))) body
  = ok req →
  http.Method req = method
  ∧ http.ReqBody req = body
  ∧ http.ReqHeader req = ∅
  ∧ url.RawQuery (http.URL req) = url.Encode q
  ∧ url.Query (http.URL req) = q.
Proof.
  intros Hu Hq. unfold http.NewRequest.
  destruct (url.Parse (url.String_ _)) as [u'|e] eqn:Hparse; [|done].
  cbn. intros [= <-]. simpl.
  assert (url.RawQuery u' = url.Encode q) as Hraw.
  { apply Parse_Prefix_clean in Hu as [? ?].
    eapply Parse_String_RawQuery; [done..|apply Encode_no_hash|done]. }
  split_and!; try done.
  unfold url.Query. rewrite Hraw. by apply ParseQuery_Encode.
Qed.

End url_facts.

(** ** The requests the client builds *)

Section request_facts.
Context `{Externals}.

Lemma NewRequest_ok method urlStr body req :
  http.NewRequest method urlStr body = ok req →
  http.Method req = method ∧ http.ReqBody req = body ∧ http.ReqHeader req = ∅.
Proof.
  unfold http.NewRequest. destruct (url.Parse urlStr); [|done].
  cbn. by intros [= <-].
Qed.

Lemma Get_setAll (q : url.Values) (meta : gmap string string) k :
  url.Get (setAll q meta) k = default (url.Get q k) (meta !! k).
Proof.
  unfold url.Get. rewrite setAll_lookup. by destruct (meta !! k).
Qed.

Lemma Get_Set q k x : url.Get (url.Set_ q k x) k = x.
Proof. unfold url.Get, url.Set_. by rewrite lookup_insert_eq. Qed.

(** Requests whose query is the URL's own with one reserved key set and the
    metadata laid over it: [NewReceiveSession], [GetDagInfo], [RemoveCID]. *)
Lemma queried_request method rem key val meta body req :
  (u ← url.Parse (URL rem);
   http.NewRequest method
     (url.String_ (url.setRawQuery u
        (url.Encode (setAll (url.Set_ (url.Query u) key val) meta)))) body)
  = ok req →
  ∃ u, url.Parse (URL rem) = ok u
       ∧ http.Method req = method
       ∧ http.ReqBody req = body
       ∧ http.ReqHeader req = ∅
       ∧ url.Query (http.URL req) = setAll (url.Set_ (url.Query u) key val) meta.
Proof.
  destruct (url.Parse (URL rem)) as [u|e] eqn:Hu; [|done].
  cbn. intros Hreq. exists u. split; [done|].
  eapply NewRequest_encoded in Hreq as (?&?&?&?&?); [done|done|].
  apply setAll_populated, Set_populated, ParseQuery_populated.
Qed.

Lemma newReceiveSessionRequest_ok rem info pinOnComplete meta req :
  newReceiveSessionRequest rem info pinOnComplete meta = ok req →
  ∃ text u,
    json_Marshal_Info info = ok text
    ∧ url.Parse (URL rem) = ok u
    ∧ http.Method req = "POST"
    ∧ http.ReqBody req = bytes_NewBuffer (text +:+ newline)
    ∧ http.ReqHeader req = {["Content-Type" := "application/json"]}
    ∧ url.Query (http.URL req)
      = setAll (url.Set_ (url.Query u) "pin" (fmt_t pinOnComplete)) meta.
Proof.
  unfold newReceiveSessionRequest, json_Encode_Info.
  destruct (json_Marshal_Info info) as [text|e]; [|done]. cbn.
  destruct (url.Parse (URL rem)) as [u|e] eqn:Hu; [|done]. cbn.
  destruct (http.NewRequest _ _ _) as [req0|e] eqn:Hreq; [|done].
  cbn. intros [= <-]. exists text, u.
  eapply NewRequest_encoded in Hreq as (?&?&Hhdr&?&?); [|done|].
  - simpl. rewrite Hhdr. split_and!; try done.
  - apply setAll_populated, Set_populated, ParseQuery_populated.
Qed.

Lemma removeCIDRequest_ok rem id meta req :
  removeCIDRequest rem id meta = ok req →
  ∃ u, url.Parse (URL rem) = ok u
       ∧ http.Method req = "DELETE"
       ∧ http.ReqBody req = bytes_NewBuffer EmptyString
       ∧ http.ReqHeader req = ∅
       ∧ url.Query (http.URL req) = setAll (url.Set_ (url.Query u) "cid" id) meta.
Proof. apply queried_request. Qed.

Lemma getDagInfoRequest_ok rem id meta req :
  getDagInfoRequest rem id meta = ok req →
  ∃ u, url.Parse (URL rem) = ok u
       ∧ http.Method req = "GET"
       ∧ http.ReqBody req = bytes_NewBuffer EmptyString
       ∧ http.ReqHeader req = ∅
       ∧ url.Query (http.URL req)
         = setAll (url.Set_ (url.Query u) "manifest" id) meta.
Proof. apply queried_request. Qed.

Lemma receiveBlockRequest_ok rem sid hash data req :
  receiveBlockRequest rem sid hash data = ok req →
  http.Method req = "PUT" ∧ http.ReqBody req = bytes_NewBuffer data.
Proof.
  unfold receiveBlockRequest.
  destruct (http.NewRequest _ _ _) as [req0|e] eqn:Hreq; [|done].
  cbn. intros [= <-]. by apply NewRequest_ok in Hreq as (?&?&?).
Qed.

(** What the handler makes of the query the client wrote. *)
Lemma metaOfQuery_lookup reserved (q : url.Values) k :
  metaOfQuery reserved q !! k
  = if decide (k = reserved) then None
    else match q !! k with
         | Some _ => Some (url.Get q k)
         | None => None
         end.
Proof.
  unfold metaOfQuery. rewrite map_lookup_imap.
  destruct (q !! k); simpl; by case_decide.
Qed.

Lemma metaOfQuery_setAll reserved (q : url.Values) val meta :
  meta !! reserved = None →
  metaOfQuery reserved (setAll (url.Set_ q reserved val) meta)
  = meta ∪ metaOfQuery reserved q.
Proof.
  intros Hres. apply map_eq. intros k.
  rewrite lookup_union, !metaOfQuery_lookup.
  unfold url.Get. rewrite setAll_lookup.
  case_decide as Hk.
  - subst. by rewrite Hres.
  - unfold url.Set_. rewrite lookup_insert_ne by done.
    destruct (meta !! k); simpl; [by destruct (q !! k)|].
    by rewrite (left_id_L None _).
Qed.

Lemma metaOfQuery_empty reserved : metaOfQuery reserved ∅ = ∅.
Proof. apply map_imap_empty. Qed.

(** *** Requests whose query is written with [Sprintf]

    [ReceiveBlock] and [GetBlock] put their arguments into the URL as they
    are. The handler reads them back as given when the client's URL has no
    query or fragment of its own and the arguments need no escaping. *)

Lemma unreserved_no_byte b s :
  structural b = true → url.unreserved s → contains (is_byte b) s = false.
Proof. intros Hb <-. by apply QueryEscape_no_byte. Qed.

Lemma Parse_appended_query rawURL query u :
  contains (is_byte "?") rawURL = false →
  contains (is_byte "#") rawURL = false →
  contains (is_byte "#") query = false →
  url.Parse (rawURL +:+ String "?" query) = ok u →
  url.RawQuery u = query.
Proof.
  intros Hq Hf Hquery Hparse. rewrite (Parse_RawQuery _ _ Hparse).
  rewrite (cut_none (is_byte "#")) by (by rewrite contains_app, Hf).
  simpl. by rewrite cut_at.
Qed.

Lemma ParseQuery_two_pairs k1 x1 k2 x2 :
  k1 ≠ k2 →
  url.ParseQuery (String.concat "&" (url.encodePairs k1 [x1] ++ url.encodePairs k2 [x2]))
  = <[k2 := [x2]]> (<[k1 := [x1]]> ∅).
Proof.
  intros Hne. rewrite ParseQuery_concat.
  2:{ apply Forall_app; split; apply encodePairs_clean. }
  rewrite foldl_app, !foldl_parsePair_encodePairs. simpl.
  unfold url.appendValue. rewrite lookup_empty. simpl.
  by rewrite lookup_insert_ne, lookup_empty by done.
Qed.

Lemma ParseQuery_one_pair k x :
  url.ParseQuery (String.concat "&" (url.encodePairs k [x])) = <[k := [x]]> ∅.
Proof.
  rewrite ParseQuery_concat by apply encodePairs_clean.
  rewrite foldl_parsePair_encodePairs. simpl.
  unfold url.appendValue. by rewrite lookup_empty.
Qed.

Lemma receiveBlockRequest_arguments rem sid hash data req :
  contains (is_byte "?") (URL rem) = false →
  contains (is_byte "#") (URL rem) = false →
  url.unreserved sid → url.unreserved hash →
  receiveBlockRequest rem sid hash data = ok req →
  http.FormValue req "sid" = sid ∧ http.FormValue req "hash" = hash.
Proof.
  intros Hq Hf Hsid Hhash. unfold receiveBlockRequest, http.NewRequest.
  destruct (url.Parse _) as [u|e] eqn:Hparse; [|done]. cbn. intros [= <-].
  unfold http.FormValue, url.Query. simpl.
  change (URL rem +:+ "?sid=" +:+ sid +:+ "&hash=" +:+ hash)
    with (URL rem +:+ String "?" ("sid=" +:+ sid +:+ "&hash=" +:+ hash)) in Hparse.
  apply Parse_appended_query in Hparse; [|done..|].
  2:{ rewrite !contains_app.
      by rewrite (unreserved_no_byte "#" sid), (unreserved_no_byte "#" hash). }
  rewrite Hparse.
  assert ("sid=" +:+ sid +:+ "&hash=" +:+ hash
          = String.concat "&" (url.encodePairs "sid" [sid]
                               ++ url.encodePairs "hash" [hash])) as ->.
  { unfold url.encodePairs. simpl. rewrite Hsid, Hhash.
    change ("sid=" +:+ sid +:+ "&hash=" +:+ hash)
      with ("sid=" +:+ (sid +:+ "&hash=" +:+ hash)).
    change (("sid" +:+ "=" +:+ sid) +:+ "&" +:+ "hash" +:+ "=" +:+ hash)
      with ("sid=" +:+ (sid +:+ "&hash=" +:+ hash)).
    done. }
  rewrite ParseQuery_two_pairs by done.
  unfold url.Get. by rewrite lookup_insert_ne, !lookup_insert_eq by done.
Qed.

Lemma getBlockRequest_arguments rem id req :
  contains (is_byte "?") (URL rem) = false →
  contains (is_byte "#") (URL rem) = false →
  url.unreserved id →
  getBlockRequest rem id = ok req →
  http.Method req = "GET"
  ∧ http.FormValue req "block" = id
  ∧ http.FormValue req "manifest" = EmptyString.
Proof.
  intros Hq Hf Hid. unfold getBlockRequest, http.NewRequest.
  destruct (url.Parse _) as [u|e] eqn:Hparse; [|done]. cbn. intros [= <-].
  unfold http.FormValue, url.Query. simpl.
  change (URL rem +:+ "?block=" +:+ id)
    with (URL rem +:+ String "?" ("block=" +:+ id)) in Hparse.
  apply Parse_appended_query in Hparse; [|done..|].
  2:{ rewrite contains_app. by rewrite (unreserved_no_byte "#" id). }
  rewrite Hparse.
  assert ("block=" +:+ id = String.concat "&" (url.encodePairs "block" [id])) as ->.
  { unfold url.encodePairs. simpl. by rewrite Hid. }
  rewrite ParseQuery_one_pair.
  unfold url.Get. by rewrite lookup_insert_eq, lookup_insert_ne, lookup_empty.
Qed.

(** *** Requests whose query is written with [Values.Encode]

    The handler reads back the reserved key and the metadata, with the
    parameters of the client's own URL underneath, when the metadata does not
    use the reserved key. *)
Lemma queried_arguments reserved val (q : url.Values) (meta : gmap string string) :
  meta !! reserved = None →
  url.Get (setAll (url.Set_ q reserved val) meta) reserved = val
  ∧ metaOfQuery reserved (setAll (url.Set_ q reserved val) meta)
    = meta ∪ metaOfQuery reserved q.
Proof.
  intros Hres. split.
  - by rewrite Get_setAll, Hres, Get_Set.
  - by apply metaOfQuery_setAll.
Qed.

Lemma removeCIDRequest_arguments rem id meta req :
  meta !! "cid" = None →
  removeCIDRequest rem id meta = ok req →
  ∃ u, url.Parse (URL rem) = ok u
       ∧ http.FormValue req "cid" = id
       ∧ metaOfQuery "cid" (url.Query (http.URL req))
         = meta ∪ metaOfQuery "cid" (url.Query u).
Proof.
  intros Hcid Hreq.
  apply removeCIDRequest_ok in Hreq as (u & Hu & _ & _ & _ & Hq).
  exists u. unfold http.FormValue. rewrite Hq.
  by destruct (queried_arguments "cid" id (url.Query u) meta Hcid).
Qed.

Lemma getDagInfoRequest_arguments rem id meta req :
  meta !! "manifest" = None →
  getDagInfoRequest rem id meta = ok req →
  ∃ u, url.Parse (URL rem) = ok u
       ∧ http.FormValue req "manifest" = id
       ∧ metaOfQuery "manifest" (url.Query (http.URL req))
         = meta ∪ metaOfQuery "manifest" (url.Query u).
Proof.
  intros Hmf Hreq.
  apply getDagInfoRequest_ok in Hreq as (u & Hu & _ & _ & _ & Hq).
  exists u. unfold http.FormValue. rewrite Hq.
  by destruct (queried_arguments "manifest" id (url.Query u) meta Hmf).
Qed.

End request_facts.

(** * The claims *)

Section claims.
Context `{Externals}.

(** ** Pushing a block *)

Lemma handler_PUT ds r :
  http.Method r = "PUT" → HTTPRemoteHandler ds r = handlePUT ds r http.NewResponseWriter.
Proof. intros Hm. unfold HTTPRemoteHandler. rewrite Hm. done. Qed.

Lemma handler_GET ds r :
  http.Method r = "GET" → HTTPRemoteHandler ds r = handleGET ds r http.NewResponseWriter.
Proof. intros Hm. unfold HTTPRemoteHandler. rewrite Hm. done. Qed.

Lemma handler_DELETE ds r :
  http.Method r = "DELETE" →
  HTTPRemoteHandler ds r = handleDELETE ds r http.NewResponseWriter.
Proof. intros Hm. unfold HTTPRemoteHandler. rewrite Hm. done. Qed.

Lemma handler_POST ds r :
  http.Method r = "POST" →
  HTTPRemoteHandler ds r = handlePOST ds r http.NewResponseWriter.
Proof. intros Hm. unfold HTTPRemoteHandler. rewrite Hm. done. Qed.

(** C8. Every call of [HTTPClient.ReceiveBlock] has one outcome, and the
    outcome names the block: the response carries the hash it was called
    with, and it is either [StatusOk] with a nil [Err], exactly when the
    request went out and the remote answered 200, or a failure status (always
    [StatusErrored]) with an [Err] that is not nil. *)
Theorem C8_ReceiveBlock_one_outcome (Do : http.RoundTripper) rem sid hash data :
  let answered200 :=
    ∃ req res, receiveBlockRequest rem sid hash data = ok req
               ∧ Do req = ok res
               ∧ http.StatusCode res = http.StatusOK in
  let r := ReceiveBlock Do rem sid hash data in
  Hash r = hash
  ∧ ((answered200 ∧ Status r = StatusOk ∧ Err r = None)
     ∨ (¬ answered200 ∧ Status r = StatusErrored ∧ is_Some (Err r))).
Proof.
  unfold ReceiveBlock.
  destruct (receiveBlockRequest rem sid hash data) as [req|e] eqn:Hreq.
  - destruct (Do req) as [res|e] eqn:Hdo.
    + case_decide as Hcode; simpl.
      * split; [done|]. right. split_and!; [|done|by eexists].
        intros (req' & res' & [= <-] & Hdo' & Hok). congruence.
      * split; [done|]. left. split; [|done].
        exists req, res. repeat split; try done; by apply dec_stable.
    + simpl. split; [done|]. right. split_and!; [|done|by eexists].
      intros (req' & res' & [= <-] & Hdo' & _). congruence.
  - simpl. split; [done|]. right. split_and!; [|done|by eexists].
    by intros (req' & res' & ? & _).
Qed.

(** What the handler does with a PUT request. *)
Lemma handlePUT_outcome ds r :
  let h := handlePUT ds r http.NewResponseWriter in
  match rd_err (http.ReqBody r) with
  | Some e =>
      hcalls h = [] ∧ statusWritten h = Some http.StatusBadRequest
  | None =>
      let sid := http.FormValue r "sid" in
      let hash := http.FormValue r "hash" in
      let data := rd_data (http.ReqBody r) in
      let res := ds_ReceiveBlock ds sid hash data in
      hcalls h = [CallReceiveBlock sid hash data]
      ∧ statusWritten h
        = Some match Status res with
               | StatusOk => http.StatusOK
               | StatusErrored => http.StatusInternalServerError
               | StatusRetry => http.StatusBadRequest
               end
  end.
Proof.
  unfold handlePUT, ioutil_ReadAll.
  destruct (rd_err (http.ReqBody r)) as [e|]; [done|].
  cbn zeta.
  destruct (ds_ReceiveBlock ds _ _ _) as [h s err]. simpl.
  by destruct s, err.
Qed.

Lemma handlePUT_calls ds r data :
  http.ReqBody r = bytes_NewBuffer data →
  hcalls (handlePUT ds r http.NewResponseWriter)
  = [CallReceiveBlock (http.FormValue r "sid") (http.FormValue r "hash") data].
Proof.
  intros Hbody. pose proof (handlePUT_outcome ds r) as Hput.
  rewrite Hbody in Hput. apply Hput.
Qed.

(** C2, as the code has it. For a PUT request whose body can be read, the
    handler calls [ReceiveBlock] once and sets the status by the [Status] of
    its response alone: 200 exactly when the block was stored ([StatusOk]),
    500 for a fatal failure ([StatusErrored]), 400 for a retryable one
    ([StatusRetry]); so the two kinds of failure have distinct codes. The
    handler goes on to write the text of [Err] and panics only if a failure
    comes with a nil [Err]. A body that cannot be read is answered 400
    without a call. *)
Theorem C2_push_block_status ds r :
  http.Method r = "PUT" →
  let h := HTTPRemoteHandler ds r in
  match rd_err (http.ReqBody r) with
  | Some e =>
      hcalls h = [] ∧ statusWritten h = Some http.StatusBadRequest
  | None =>
      let sid := http.FormValue r "sid" in
      let hash := http.FormValue r "hash" in
      let data := rd_data (http.ReqBody r) in
      let res := ds_ReceiveBlock ds sid hash data in
      hcalls h = [CallReceiveBlock sid hash data]
      ∧ statusWritten h
        = Some match Status res with
               | StatusOk => http.StatusOK
               | StatusErrored => http.StatusInternalServerError
               | StatusRetry => http.StatusBadRequest
               end
      ∧ (statusWritten h = Some http.StatusOK ↔ Status res = StatusOk)
      ∧ (hpanic h = true ↔ Status res ≠ StatusOk ∧ Err res = None)
  end.
Proof.
  intros Hm. rewrite (handler_PUT _ _ Hm).
  pose proof (handlePUT_outcome ds r) as Hput. cbn zeta in *.
  destruct (rd_err (http.ReqBody r)) as [e|] eqn:Hread; [done|].
  destruct Hput as [Hcalls Hstatus].
  refine (conj Hcalls (conj Hstatus (conj _ _))).
  - rewrite Hstatus. by destruct (Status _).
  - unfold handlePUT, ioutil_ReadAll. rewrite Hread. cbn zeta.
    destruct (ds_ReceiveBlock ds _ _ _) as [h s err]. simpl.
    destruct s, err; simpl; split; try done; by intros [? ?].
Qed.

(** What the caller of [ReceiveBlock] sees of the receiver's answer. *)
Lemma ReceiveBlock_serve_status ds rem sid hash data req :
  receiveBlockRequest rem sid hash data = ok req →
  Status (ReceiveBlock (serve ds) rem sid hash data)
  = match Status (ds_ReceiveBlock ds (http.FormValue req "sid")
                    (http.FormValue req "hash") data) with
    | StatusOk => StatusOk
    | StatusRetry | StatusErrored => StatusErrored
    end.
Proof.
  intros Hreq. unfold ReceiveBlock. rewrite Hreq.
  apply receiveBlockRequest_ok in Hreq as [Hm Hbody].
  unfold serve. rewrite (handler_PUT _ _ Hm). unfold handlePUT.
  rewrite Hbody. cbn [ioutil_ReadAll bytes_NewBuffer rd_data rd_err].
  cbn zeta.
  destruct (ds_ReceiveBlock ds _ _ _) as [h s err].
  destruct s, err; reflexivity.
Qed.

(** C3, as the code has it. Over HTTP the caller of [ReceiveBlock] learns
    whether the receiver stored the block and nothing more: a block the
    receiver's [ReceiveBlock] answers with [StatusOk] comes back [StatusOk],
    and both [StatusRetry] and [StatusErrored] come back [StatusErrored]. The
    handler tells the two apart by the status code (400 and 500); the client
    makes [StatusErrored] of every code but 200. *)
Theorem C3_ReceiveBlock_over_http ds rem sid hash data req :
  receiveBlockRequest rem sid hash data = ok req →
  let res := ds_ReceiveBlock ds (http.FormValue req "sid")
               (http.FormValue req "hash") data in
  Status (ReceiveBlock (serve ds) rem sid hash data)
  = match Status res with
    | StatusOk => StatusOk
    | StatusRetry | StatusErrored => StatusErrored
    end.
Proof.
  intros Hreq res. unfold ReceiveBlock. rewrite Hreq.
  destruct (receiveBlockRequest_ok _ _ _ _ _ Hreq) as [Hm Hbody].
  (* the handler's side: the status code it writes for [res] *)
  assert (serve ds req
          = match Status res, Err res with
            | StatusOk, _ =>
                ok {| http.StatusCode := http.StatusOK; http.ResHeader := ∅;
                      http.Body := bytes_NewBuffer EmptyString |}
            | StatusRetry, Some e =>
                ok {| http.StatusCode := http.StatusBadRequest;
                      http.ResHeader := ∅;
                      http.Body := bytes_NewBuffer (Error e) |}
            | StatusErrored, Some e =>
                ok {| http.StatusCode := http.StatusInternalServerError;
                      http.ResHeader := ∅;
                      http.Body := bytes_NewBuffer (Error e) |}
            | _, None => fail (errorString "EOF")
            end) as ->.
  { unfold serve. rewrite (handler_PUT _ _ Hm). unfold handlePUT.
    rewrite Hbody. cbn [ioutil_ReadAll bytes_NewBuffer rd_data rd_err].
    cbn zeta. fold res. by destruct (Status res), (Err res). }
  (* the client's side: every code but 200 is [StatusErrored] *)
  by destruct (Status res), (Err res).
Qed.

(** With a plain URL and arguments that need no escaping, the receiver is
    asked about the very session and block the caller named. *)
Corollary ReceiveBlock_over_http_plain ds rem sid hash data req :
  contains (is_byte "?") (URL rem) = false →
  contains (is_byte "#") (URL rem) = false →
  url.unreserved sid → url.unreserved hash →
  receiveBlockRequest rem sid hash data = ok req →
  hcalls (HTTPRemoteHandler ds req) = [CallReceiveBlock sid hash data]
  ∧ Status (ReceiveBlock (serve ds) rem sid hash data)
    = match Status (ds_ReceiveBlock ds sid hash data) with
      | StatusOk => StatusOk
      | StatusRetry | StatusErrored => StatusErrored
      end.
Proof.
  intros Hq Hf Hsid Hhash Hreq.
  destruct (receiveBlockRequest_arguments _ _ _ _ _ Hq Hf Hsid Hhash Hreq)
    as [Hs Hh].
  pose proof (ReceiveBlock_serve_status ds _ _ _ _ _ Hreq) as Hstatus.
  rewrite Hs, Hh in Hstatus. split; [|done].
  apply receiveBlockRequest_ok in Hreq as [Hm Hbody].
  rewrite (handler_PUT _ _ Hm), (handlePUT_calls _ _ _ Hbody). by rewrite Hs, Hh.
Qed.

(** ** Fetching *)


(** What the client makes of an answer to a fetch that is not 200. *)
Lemma GetDagInfo_not_200 (Do : http.RoundTripper) rem id meta req res :
  getDagInfoRequest rem id meta = ok req →
  Do req = ok res →
  http.StatusCode res ≠ http.StatusOK →
  GetDagInfo Do rem id meta
  = (None, Some (errorString ("remote error: "
                              +:+ fmt_d (http.StatusCode res) +:+ " "
                              +:+ responseMessage res))).
Proof.
  intros Hreq Hdo Hcode. unfold GetDagInfo. rewrite Hreq, Hdo.
  by rewrite decide_True by done.
Qed.

Lemma GetBlock_not_200 (Do : http.RoundTripper) rem id req res :
  getBlockRequest rem id = ok req →
  Do req = ok res →
  http.StatusCode res ≠ http.StatusOK →
  GetBlock Do rem id
  = (EmptyString,
     Some (errorString ("remote error: "
                        +:+ fmt_d (http.StatusCode res) +:+ " "
                        +:+ responseMessage res))).
Proof.
  intros Hreq Hdo Hcode. unfold GetBlock. rewrite Hreq, Hdo.
  by rewrite decide_True by done.
Qed.

(** C4, as the code has it. When the remote answers [GetDagInfo] or
    [GetBlock] with a status other than 200, as the handler does for an
    unknown identifier, the caller gets no info or data and an error made on
    the spot from the status code and the text of the response: a value that
    carries nothing but its message. *)
Theorem C4_fetch_failure_is_text (Do : http.RoundTripper) rem id meta
    reqInfo resInfo reqBlock resBlock :
  getDagInfoRequest rem id meta = ok reqInfo →
  Do reqInfo = ok resInfo →
  http.StatusCode resInfo ≠ http.StatusOK →
  getBlockRequest rem id = ok reqBlock →
  Do reqBlock = ok resBlock →
  http.StatusCode resBlock ≠ http.StatusOK →
  GetDagInfo Do rem id meta
  = (None, Some (errorString ("remote error: "
                              +:+ fmt_d (http.StatusCode resInfo) +:+ " "
                              +:+ responseMessage resInfo)))
  ∧ GetBlock Do rem id
    = (EmptyString,
       Some (errorString ("remote error: "
                          +:+ fmt_d (http.StatusCode resBlock) +:+ " "
                          +:+ responseMessage resBlock))).
Proof.
  intros HreqI HdoI HcodeI HreqB HdoB HcodeB.
  split; [by eapply GetDagInfo_not_200|by eapply GetBlock_not_200].
Qed.

(** What the handler answers when the [Dsync] does not know the identifier
    of a fetch: status 500 and the text of the error. *)
Lemma serve_GET_error ds r e :
  http.Method r = "GET" →
  (http.FormValue r "manifest" ≠ EmptyString
   ∧ (ds_GetDagInfo ds (http.FormValue r "manifest")
        (metaOfQuery "manifest" (url.Query (http.URL r)))).2 = Some e)
  ∨ (http.FormValue r "manifest" = EmptyString
     ∧ http.FormValue r "block" ≠ EmptyString
     ∧ (ds_GetBlock ds (http.FormValue r "block")).2 = Some e) →
  serve ds r = ok {| http.StatusCode := http.StatusInternalServerError;
                     http.ResHeader := ∅;
                     http.Body := bytes_NewBuffer (Error e) |}.
Proof.
  intros Hm Hcase. unfold serve. rewrite (handler_GET _ _ Hm). unfold handleGET.
  destruct Hcase as [[Hmf He]|(Hmf & Hbl & He)].
  - rewrite decide_False by (by intros [? _]). rewrite decide_True by done.
    destruct (ds_GetDagInfo ds _ _) as [info err]. simpl in He. by subst err.
  - rewrite decide_False by (by intros [_ ?]).
    rewrite decide_False by (by intros ?).
    destruct (ds_GetBlock ds _) as [data err]. simpl in He. by subst err.
Qed.

(** End to end: an identifier the receiver does not know. *)
Corollary GetDagInfo_unknown_over_http ds rem id meta req e :
  id ≠ EmptyString →
  meta !! "manifest" = None →
  getDagInfoRequest rem id meta = ok req →
  (∀ m, (ds_GetDagInfo ds id m).2 = Some e) →
  GetDagInfo (serve ds) rem id meta
  = (None, Some (errorString ("remote error: 500 " +:+ Error e))).
Proof.
  intros Hid Hmeta Hreq Hunknown.
  destruct (getDagInfoRequest_arguments _ _ _ _ Hmeta Hreq) as (u & _ & Hmf & _).
  pose proof Hreq as (_ & _ & Hm & _)%getDagInfoRequest_ok.
  eapply eq_trans; [eapply GetDagInfo_not_200; [done| |]|].
  - apply (serve_GET_error ds req e Hm). left. rewrite Hmf. by split.
  - done.
  - done.
Qed.

Corollary GetBlock_unknown_over_http ds rem id req e :
  id ≠ EmptyString →
  contains (is_byte "?") (URL rem) = false →
  contains (is_byte "#") (URL rem) = false →
  url.unreserved id →
  getBlockRequest rem id = ok req →
  (ds_GetBlock ds id).2 = Some e →
  GetBlock (serve ds) rem id
  = (EmptyString, Some (errorString ("remote error: 500 " +:+ Error e))).
Proof.
  intros Hid Hq Hf Hplain Hreq Hunknown.
  destruct (getBlockRequest_arguments _ _ _ Hq Hf Hplain Hreq) as (Hm & Hbl & Hmf).
  eapply eq_trans; [eapply GetBlock_not_200; [done| |]|].
  - apply (serve_GET_error ds req e Hm). right. rewrite Hmf, Hbl. by split_and!.
  - done.
  - done.
Qed.

(** ** Removing *)

(** C7, as the code has it. [RemoveCID] takes a response for the sentinel by
    its text alone: it returns [ErrRemoveNotSupported] exactly when the
    status is not 200 and the body, read without error, equals
    [ErrRemoveNotSupported.Error()]. *)
Theorem C7_sentinel_by_message_text (Do : http.RoundTripper) rem id meta req res :
  removeCIDRequest rem id meta = ok req →
  Do req = ok res →
  RemoveCID Do rem id meta = Some ErrRemoveNotSupported
  ↔ http.StatusCode res ≠ http.StatusOK
    ∧ responseMessage res = Error ErrRemoveNotSupported.
Proof.
  intros Hreq Hdo. unfold RemoveCID. rewrite Hreq, Hdo.
  destruct (decide (http.StatusCode res ≠ http.StatusOK)) as [Hcode|Hcode].
  - destruct (decide (responseMessage res = Error ErrRemoveNotSupported)).
    + done.
    + split; [done|]. by intros [_ ?].
  - split; [done|]. by intros [? _].
Qed.

(** The remove operation through the handler. *)
Lemma RemoveCID_serve ds rem id meta req :
  removeCIDRequest rem id meta = ok req →
  let cid := http.FormValue req "cid" in
  let meta' := metaOfQuery "cid" (url.Query (http.URL req)) in
  hcalls (HTTPRemoteHandler ds req) = [CallRemoveCID cid meta']
  ∧ RemoveCID (serve ds) rem id meta
    = match ds_RemoveCID ds cid meta' with
      | None => None
      | Some e =>
          if decide (Error e = Error ErrRemoveNotSupported)
          then Some ErrRemoveNotSupported
          else Some (errorString ("remote: 500 " +:+ Error e))
      end.
Proof.
  intros Hreq. cbn zeta. unfold RemoveCID. rewrite Hreq.
  apply removeCIDRequest_ok in Hreq as (u & _ & Hm & _).
  unfold serve. rewrite (handler_DELETE _ _ Hm). unfold handleDELETE.
  by destruct (ds_RemoveCID ds _ _).
Qed.

(** C1, as the code has it. When the [Dsync] behind the handler answers the
    remove with [ErrRemoveNotSupported], the client returns that very
    sentinel. When it answers with another error whose text differs from the
    sentinel's, the client returns an error made from the status code, 500,
    and the body, which is the text of that error. *)
Theorem C1_remove_round_trip ds rem id meta req :
  removeCIDRequest rem id meta = ok req →
  let cid := http.FormValue req "cid" in
  let meta' := metaOfQuery "cid" (url.Query (http.URL req)) in
  hcalls (HTTPRemoteHandler ds req) = [CallRemoveCID cid meta']
  ∧ (ds_RemoveCID ds cid meta' = Some ErrRemoveNotSupported →
     RemoveCID (serve ds) rem id meta = Some ErrRemoveNotSupported)
  ∧ (∀ e, ds_RemoveCID ds cid meta' = Some e →
          Error e ≠ Error ErrRemoveNotSupported →
          RemoveCID (serve ds) rem id meta
          = Some (errorString ("remote: 500 " +:+ Error e))).
Proof.
  intros Hreq. destruct (RemoveCID_serve ds _ _ _ _ Hreq) as [Hcalls Hremove].
  cbn zeta in *. rewrite Hremove. refine (conj Hcalls (conj _ _)).
  - intros ->. by rewrite decide_True.
  - intros e -> Hne. by rewrite decide_False.
Qed.

(** End to end: a receiver that cannot remove, asked with metadata that
    leaves [cid] alone. *)
Corollary RemoveCID_not_supported_over_http ds rem id meta req :
  meta !! "cid" = None →
  removeCIDRequest rem id meta = ok req →
  (∀ m, ds_RemoveCID ds id m = Some ErrRemoveNotSupported) →
  hcalls (HTTPRemoteHandler ds req)
  = [CallRemoveCID id (metaOfQuery "cid" (url.Query (http.URL req)))]
  ∧ RemoveCID (serve ds) rem id meta = Some ErrRemoveNotSupported.
Proof.
  intros Hmeta Hreq Hkeeps.
  destruct (removeCIDRequest_arguments _ _ _ _ Hmeta Hreq) as (u & _ & Hcid & _).
  destruct (RemoveCID_serve ds _ _ _ _ Hreq) as [Hcalls Hremove].
  cbn zeta in *. rewrite Hcid in *. split; [done|].
  by rewrite Hremove, Hkeeps, decide_True.
Qed.

(** ** Opening a session *)


(** C9. When the metadata has an entry under [pin], the [pin] parameter the
    remote receives is that entry and not the text of the [pinOnComplete]
    argument: the entries of the metadata are set after the flag and replace
    it. The request, and with it the result of the call, is then the same
    whatever the argument. *)
Theorem C9_meta_pin_overrides rem info meta val :
  meta !! "pin" = Some val →
  (∀ flag req,
     newReceiveSessionRequest rem info flag meta = ok req →
     url.Get (url.Query (http.URL req)) "pin" = val
     ∧ http.FormValue req "pin" = val)
  ∧ (∀ flag flag',
       newReceiveSessionRequest rem info flag meta
       = newReceiveSessionRequest rem info flag' meta)
  ∧ (∀ (Do : http.RoundTripper) flag flag',
       NewReceiveSession Do rem info flag meta
       = NewReceiveSession Do rem info flag' meta).
Proof.
  intros Hpin.
  assert (∀ flag flag',
            newReceiveSessionRequest rem info flag meta
            = newReceiveSessionRequest rem info flag' meta) as Hsame.
  { intros flag flag'. unfold newReceiveSessionRequest.
    destruct (json_Encode_Info info) as [buf|]; [|done]. cbn.
    destruct (url.Parse (URL rem)) as [u|]; [|done]. cbn.
    assert (setAll (url.Set_ (url.Query u) "pin" (fmt_t flag)) meta
            = setAll (url.Set_ (url.Query u) "pin" (fmt_t flag')) meta) as ->;
      [|done].
    apply map_eq. intros k. rewrite !setAll_lookup.
    destruct (meta !! k) eqn:Hk; [done|].
    unfold url.Set_. rewrite !lookup_insert_ne; [done|congruence..]. }
  refine (conj _ (conj Hsame _)).
  - intros flag req Hreq.
    apply newReceiveSessionRequest_ok in Hreq as (_ & u & _ & _ & _ & _ & _ & Hq).
    unfold http.FormValue. by rewrite Hq, Get_setAll, Hpin.
  - intros Do flag flag'. unfold NewReceiveSession.
    by rewrite (Hsame flag flag').
Qed.

(** C6, as the code has it. For metadata without a [pin] entry, the handler
    calls [NewReceiveSession] (when it can decode the body) with the flag the
    caller gave and with the caller's metadata laid over the query parameters
    of the client's own URL, [pin] apart; with exactly the caller's metadata
    when that URL has no query parameters. *)
Theorem C6_session_arguments_round_trip ds rem info pinOnComplete meta req :
  meta !! "pin" = None →
  newReceiveSessionRequest rem info pinOnComplete meta = ok req →
  ∃ u, url.Parse (URL rem) = ok u
       ∧ hcalls (HTTPRemoteHandler ds req)
         = match json_Decode_Info (http.ReqBody req) with
           | (info', None) =>
               [CallNewReceiveSession info' pinOnComplete
                  (meta ∪ metaOfQuery "pin" (url.Query u))]
           | (_, Some _) => []
           end
       ∧ (url.Query u = ∅ → meta ∪ metaOfQuery "pin" (url.Query u) = meta).
Proof.
  intros Hpin Hreq.
  apply newReceiveSessionRequest_ok in Hreq
    as (text & u & Htext & Hu & Hm & Hbody & Hhdr & Hq).
  exists u. refine (conj Hu (conj _ _)).
  - rewrite (handler_POST _ _ Hm). unfold handlePOST.
    destruct (json_Decode_Info (http.ReqBody req)) as [info' [e|]]; [done|].
    unfold http.FormValue. rewrite Hq, Get_setAll, Hpin, Get_Set. simpl.
    rewrite metaOfQuery_setAll by done.
    assert (bool_decide (fmt_t pinOnComplete = "true") = pinOnComplete) as ->
      by (by destruct pinOnComplete).
    destruct (ds_NewReceiveSession ds _ _ _) as [[sid diff] [e|]]; [done|].
    by destruct (json_Encode_Manifest diff).
  - intros ->. by rewrite metaOfQuery_empty, (right_id_L ∅ (∪)).
Qed.

End claims.

(** * Worked examples

    The theorems above at concrete clients, receivers and requests, in the
    setting of [exampleExternals]; and inputs on which the mapping departs
    from what one would expect of it. *)

Section worked_examples.
Local Existing Instance exampleExternals.

(** ** Removing *)

Lemma C1_remove_round_trip_witness :
  removeCIDRequest exampleClient "QmRoot" ∅
  = ok (exampleRequest "DELETE" "cid=QmRoot" ∅ EmptyString)
  ∧ RemoveCID (serve keepingDsync) exampleClient "QmRoot" ∅
    = Some ErrRemoveNotSupported
  ∧ RemoveCID (serve failingRemoveDsync) exampleClient "QmRoot" ∅
    = Some (errorString "remote: 500 disk full").
Proof.
  assert (removeCIDRequest exampleClient "QmRoot" ∅
          = ok (exampleRequest "DELETE" "cid=QmRoot" ∅ EmptyString)) as Hreq
    by (vm_compute; reflexivity).
  split; [exact Hreq|]. split.
  - destruct (C1_remove_round_trip keepingDsync _ _ _ _ Hreq) as (_ & Hsentinel & _).
    apply Hsentinel. reflexivity.
  - destruct (C1_remove_round_trip failingRemoveDsync _ _ _ _ Hreq) as (_ & _ & Hother).
    apply (Hother (errorString "disk full")); [reflexivity|].
    vm_compute. discriminate.
Defined.

(** A receiver whose own error reads like the sentinel: the client returns
    the sentinel, not an error made of the status code and the body. *)
Lemma C1_soundalike_counterexample :
  ds_RemoveCID soundalikeDsync "QmRoot" ∅
  = Some (errorString "remove is not supported")
  ∧ errorString "remove is not supported" ≠ ErrRemoveNotSupported
  ∧ RemoveCID (serve soundalikeDsync) exampleClient "QmRoot" ∅
    = Some ErrRemoveNotSupported
  ∧ RemoveCID (serve soundalikeDsync) exampleClient "QmRoot" ∅
    ≠ Some (errorString "remote: 500 remove is not supported").
Proof.
  split; [reflexivity|]. split; [discriminate|].
  assert (RemoveCID (serve soundalikeDsync) exampleClient "QmRoot" ∅
          = Some ErrRemoveNotSupported) as -> by (vm_compute; reflexivity).
  split; [reflexivity|discriminate].
Qed.

Lemma C7_sentinel_by_message_text_witness :
  removeCIDRequest exampleClient "QmRoot" ∅
  = ok (exampleRequest "DELETE" "cid=QmRoot" ∅ EmptyString)
  ∧ answering 500 "remove is not supported"
      (exampleRequest "DELETE" "cid=QmRoot" ∅ EmptyString)
    = ok {| http.StatusCode := 500; http.ResHeader := ∅;
            http.Body := bytes_NewBuffer "remove is not supported" |}
  ∧ RemoveCID (answering 500 "remove is not supported") exampleClient "QmRoot" ∅
    = Some ErrRemoveNotSupported.
Proof.
  assert (removeCIDRequest exampleClient "QmRoot" ∅
          = ok (exampleRequest "DELETE" "cid=QmRoot" ∅ EmptyString)) as Hreq
    by (vm_compute; reflexivity).
  split; [exact Hreq|]. split; [reflexivity|].
  apply (C7_sentinel_by_message_text
           (answering 500 "remove is not supported") _ _ _ _ _ Hreq eq_refl).
  split; [vm_compute; discriminate|reflexivity].
Defined.

(** Two answers with the same status and header that differ in the text of
    the body alone: one is taken for the sentinel, the other is not. *)
Lemma C7_text_decides_counterexample :
  ¬ (∀ res1 res2 : http.Response,
       http.StatusCode res1 = http.StatusCode res2 →
       http.ResHeader res1 = http.ResHeader res2 →
       RemoveCID (λ _, ok res1) exampleClient "QmRoot" ∅
       = Some ErrRemoveNotSupported
       ↔ RemoveCID (λ _, ok res2) exampleClient "QmRoot" ∅
         = Some ErrRemoveNotSupported).
Proof.
  intros Hclaim.
  specialize (Hclaim
    {| http.StatusCode := 500; http.ResHeader := ∅;
       http.Body := bytes_NewBuffer "remove is not supported" |}
    {| http.StatusCode := 500; http.ResHeader := ∅;
       http.Body := bytes_NewBuffer "disk full" |} eq_refl eq_refl).
  destruct Hclaim as [Hclaim _].
  assert (Some (errorString "remote: 500 disk full") = Some ErrRemoveNotSupported)
    as Habsurd; [|discriminate].
  apply Hclaim. vm_compute. reflexivity.
Qed.

(** ** Pushing a block *)

Lemma C2_push_block_status_witness :
  let r := exampleRequest "PUT" "sid=session-1&hash=QmBlock" ∅ "data" in
  http.Method r = "PUT"
  ∧ hcalls (HTTPRemoteHandler exampleDsync r)
    = [CallReceiveBlock "session-1" "QmBlock" "data"]
  ∧ statusWritten (HTTPRemoteHandler exampleDsync r) = Some 200
  ∧ statusWritten (HTTPRemoteHandler rejectingDsync r) = Some 500
  ∧ statusWritten (HTTPRemoteHandler busyDsync r) = Some 400.
Proof.
  intros r.
  assert (http.Method r = "PUT") as Hm by reflexivity.
  split; [exact Hm|].
  destruct (C2_push_block_status exampleDsync r Hm) as (Hcalls & Hstored & _ & _).
  destruct (C2_push_block_status rejectingDsync r Hm) as (_ & Hrejected & _ & _).
  destruct (C2_push_block_status busyDsync r Hm) as (_ & Hbusy & _ & _).
  split; [exact Hcalls|]. split; [exact Hstored|].
  split; [exact Hrejected|exact Hbusy].
Defined.

(** A block the receiver rejects for good is answered 500, which is no 4xx
    status. *)
Lemma C2_fatal_is_500_counterexample :
  let r := exampleRequest "PUT" "sid=session-1&hash=QmBlock" ∅ "data" in
  Status (ds_ReceiveBlock rejectingDsync "session-1" "QmBlock" "data")
  = StatusErrored
  ∧ http.StatusCode (http.response (hw (HTTPRemoteHandler rejectingDsync r)))
    = 500
  ∧ ¬ (400 ≤ http.StatusCode
               (http.response (hw (HTTPRemoteHandler rejectingDsync r))) < 500).
Proof.
  intros r. split; [reflexivity|].
  assert (http.StatusCode (http.response (hw (HTTPRemoteHandler rejectingDsync r)))
          = 500) as -> by (vm_compute; reflexivity).
  split; [reflexivity|lia].
Qed.

Lemma C3_ReceiveBlock_over_http_witness :
  receiveBlockRequest exampleClient "session-1" "QmBlock" "data"
  = ok (exampleRequest "PUT" "sid=session-1&hash=QmBlock"
          {["Content-Type" := "application/octet-stream"]} "data")
  ∧ Status (ds_ReceiveBlock busyDsync "session-1" "QmBlock" "data") = StatusRetry
  ∧ Status (ReceiveBlock (serve busyDsync) exampleClient
              "session-1" "QmBlock" "data")
    = StatusErrored.
Proof.
  assert (receiveBlockRequest exampleClient "session-1" "QmBlock" "data"
          = ok (exampleRequest "PUT" "sid=session-1&hash=QmBlock"
                  {["Content-Type" := "application/octet-stream"]} "data"))
    as Hreq by (vm_compute; reflexivity).
  split; [exact Hreq|]. split; [reflexivity|].
  exact (C3_ReceiveBlock_over_http busyDsync _ _ _ _ _ Hreq).
Defined.

(** The whole response the caller gets for a block the receiver asked to be
    sent again. *)
Lemma ReceiveBlock_retry_example :
  ds_ReceiveBlock busyDsync "session-1" "QmBlock" "data"
  = {| Hash := "QmBlock"; Status := StatusRetry;
       Err := Some (errorString "busy") |}
  ∧ ReceiveBlock (serve busyDsync) exampleClient "session-1" "QmBlock" "data"
    = {| Hash := "QmBlock"; Status := StatusErrored;
         Err := Some (errorString "remote error: 400 busy") |}.
Proof. split; [reflexivity|]. vm_compute. reflexivity. Qed.

(** The arguments go into the URL unescaped: a hash with a '+' in it reaches
    the receiver with a space. *)
Lemma ReceiveBlock_unescaped_example :
  let req := exampleRequest "PUT" "sid=session-1&hash=Qm+1"
               {["Content-Type" := "application/octet-stream"]} "data" in
  receiveBlockRequest exampleClient "session-1" "Qm+1" "data" = ok req
  ∧ hcalls (HTTPRemoteHandler exampleDsync req)
    = [CallReceiveBlock "session-1" "Qm 1" "data"].
Proof. split; vm_compute; reflexivity. Qed.

(** ** Fetching *)

Lemma C4_fetch_failure_is_text_witness :
  let reqInfo := exampleRequest "GET" "manifest=QmRoot" ∅ EmptyString in
  let reqBlock := exampleRequest "GET" "block=QmRoot" ∅ EmptyString in
  let res := {| http.StatusCode := 500; http.ResHeader := ∅;
                http.Body := bytes_NewBuffer "not found" |} in
  (getDagInfoRequest exampleClient "QmRoot" ∅ = ok reqInfo
   ∧ serve emptyDsync reqInfo = ok res
   ∧ http.StatusCode res ≠ http.StatusOK
   ∧ getBlockRequest exampleClient "QmRoot" = ok reqBlock
   ∧ serve emptyDsync reqBlock = ok res)
  ∧ GetDagInfo (serve emptyDsync) exampleClient "QmRoot" ∅
    = (None, Some (errorString "remote error: 500 not found"))
  ∧ GetBlock (serve emptyDsync) exampleClient "QmRoot"
    = (EmptyString, Some (errorString "remote error: 500 not found")).
Proof.
  intros reqInfo reqBlock res.
  assert (getDagInfoRequest exampleClient "QmRoot" ∅ = ok reqInfo) as HreqI
    by (vm_compute; reflexivity).
  assert (serve emptyDsync reqInfo = ok res) as HdoI by (vm_compute; reflexivity).
  assert (http.StatusCode res ≠ http.StatusOK) as Hcode by (vm_compute; discriminate).
  assert (getBlockRequest exampleClient "QmRoot" = ok reqBlock) as HreqB
    by (vm_compute; reflexivity).
  assert (serve emptyDsync reqBlock = ok res) as HdoB by (vm_compute; reflexivity).
  split; [by repeat split|].
  exact (C4_fetch_failure_is_text (serve emptyDsync) exampleClient "QmRoot" ∅
           reqInfo res reqBlock res HreqI HdoI Hcode HreqB HdoB Hcode).
Defined.

(** An identifier the receiver's store reports unknown by a typed error
    reaches the caller as an error that is nothing but text. *)
Lemma C4_not_found_is_text_counterexample :
  (ds_GetDagInfo emptyDsync "QmUnknown" ∅).2 = Some ErrNotFound
  ∧ (ds_GetBlock emptyDsync "QmUnknown").2 = Some ErrNotFound
  ∧ (GetDagInfo (serve emptyDsync) exampleClient "QmUnknown" ∅).2
    = Some (errorString "remote error: 500 not found")
  ∧ (GetBlock (serve emptyDsync) exampleClient "QmUnknown").2
    = Some (errorString "remote error: 500 not found")
  ∧ ¬ (∃ name msg,
         (GetDagInfo (serve emptyDsync) exampleClient "QmUnknown" ∅).2
         = Some (typedError name msg))
  ∧ ¬ (∃ name msg,
         (GetBlock (serve emptyDsync) exampleClient "QmUnknown").2
         = Some (typedError name msg)).
Proof.
  assert ((GetDagInfo (serve emptyDsync) exampleClient "QmUnknown" ∅).2
          = Some (errorString "remote error: 500 not found")) as HI
    by (vm_compute; reflexivity).
  assert ((GetBlock (serve emptyDsync) exampleClient "QmUnknown").2
          = Some (errorString "remote error: 500 not found")) as HB
    by (vm_compute; reflexivity).
  rewrite HI, HB. repeat split; try reflexivity.
  - intros (name & msg & ?). discriminate.
  - intros (name & msg & ?). discriminate.
Qed.


(** ** Opening a session *)


Lemma C9_meta_pin_overrides_witness :
  let meta : gmap string string := {["pin" := "never"]} in
  let req := exampleRequest "POST" "pin=never"
               {["Content-Type" := "application/json"]} ("{}" +:+ newline) in
  (meta !! "pin" = Some "never"
   ∧ newReceiveSessionRequest exampleClient "{}" true meta = ok req)
  ∧ http.FormValue req "pin" = "never"
  ∧ newReceiveSessionRequest exampleClient "{}" false meta = ok req
  ∧ NewReceiveSession (serve exampleDsync) exampleClient "{}" true meta
    = NewReceiveSession (serve exampleDsync) exampleClient "{}" false meta.
Proof.
  intros meta req.
  assert (meta !! "pin" = Some "never") as Hpin by (vm_compute; reflexivity).
  assert (newReceiveSessionRequest exampleClient "{}" true meta = ok req) as Hreq
    by (vm_compute; reflexivity).
  split; [by split|].
  destruct (@C9_meta_pin_overrides exampleExternals
              exampleClient "{}" meta "never" Hpin) as (Hsent & Hsame & Hcall).
  split; [exact (proj2 (Hsent true req Hreq))|].
  split; [|exact (Hcall (serve exampleDsync) true false)].
  rewrite (Hsame false true). exact Hreq.
Defined.

Lemma C6_session_arguments_round_trip_witness :
  let meta : gmap string string := {["user" := "ada"]} in
  let req := exampleRequest "POST" "pin=true&user=ada"
               {["Content-Type" := "application/json"]} ("{}" +:+ newline) in
  (meta !! "pin" = None
   ∧ newReceiveSessionRequest exampleClient "{}" true meta = ok req)
  ∧ hcalls (HTTPRemoteHandler exampleDsync req)
    = [CallNewReceiveSession ("{}" +:+ newline) true meta].
Proof.
  intros meta req.
  assert (meta !! "pin" = None) as Hpin by (vm_compute; reflexivity).
  assert (newReceiveSessionRequest exampleClient "{}" true meta = ok req) as Hreq
    by (vm_compute; reflexivity).
  split; [by split|].
  destruct (@C6_session_arguments_round_trip exampleExternals
              exampleDsync exampleClient "{}" true
              meta req Hpin Hreq) as (u & Hu & Hcalls & Hplain).
  assert (url.Query u = ∅) as Hquery.
  { vm_compute in Hu. injection Hu as <-. vm_compute. reflexivity. }
  rewrite (Hplain Hquery) in Hcalls. exact Hcalls.
Defined.

(** A client whose URL has a parameter of its own: the handler passes that
    parameter on as metadata, though the caller gave none. *)
Lemma C6_url_parameter_counterexample :
  let req := exampleRequest "POST" "pin=true&token=abc"
               {["Content-Type" := "application/json"]} ("{}" +:+ newline) in
  (∅ : gmap string string) !! "pin" = None
  ∧ newReceiveSessionRequest tokenClient "{}" true ∅ = ok req
  ∧ hcalls (HTTPRemoteHandler exampleDsync req)
    = [CallNewReceiveSession ("{}" +:+ newline) true {["token" := "abc"]}]
  ∧ ({["token" := "abc"]} : gmap string string) ≠ ∅.
Proof.
  intros req. split; [reflexivity|].
  split; [vm_compute; reflexivity|].
  split; [vm_compute; reflexivity|].
  apply insert_non_empty.
Qed.

End worked_examples.

(** * Further properties of the handler and of the client *)

Section handler_facts.
Context `{Externals}.

(** ** The handler on any request *)

Lemma writeError_calls code err calls w :
  hcalls (writeError code err calls w) = calls.
Proof. unfold writeError. by destruct err. Qed.

Lemma writeError_status code err calls :
  http.StatusCode
    (http.response (hw (writeError code err calls http.NewResponseWriter)))
  = code.
Proof. unfold writeError. by destruct err. Qed.

Lemma writeError_panic code err calls w :
  hpanic (writeError code err calls w) = bool_decide (err = None).
Proof. unfold writeError. by destruct err. Qed.

(** Which calls each method can lead to. *)
Lemma handlePOST_calls ds r w :
  hcalls (handlePOST ds r w)
  = match json_Decode_Info (http.ReqBody r) with
    | (info, None) =>
        [CallNewReceiveSession info
           (bool_decide (http.FormValue r "pin" = "true"))
           (metaOfQuery "pin" (url.Query (http.URL r)))]
    | (_, Some _) => []
    end.
Proof.
  unfold handlePOST.
  destruct (json_Decode_Info (http.ReqBody r)) as [info [e|]]; [done|].
  destruct (ds_NewReceiveSession ds _ _ _) as [[sid diff] [e|]]; [done|].
  by destruct (json_Encode_Manifest diff).
Qed.

Lemma handleGET_calls ds r w :
  hcalls (handleGET ds r w)
  = if decide (http.FormValue r "manifest" ≠ EmptyString)
    then [CallGetDagInfo (http.FormValue r "manifest")
            (metaOfQuery "manifest" (url.Query (http.URL r)))]
    else if decide (http.FormValue r "block" ≠ EmptyString)
    then [CallGetBlock (http.FormValue r "block")]
    else [].
Proof.
  unfold handleGET.
  destruct (decide (http.FormValue r "manifest" ≠ EmptyString)) as [Hmf|Hmf].
  - rewrite decide_False by (by intros [? _]).
    destruct (ds_GetDagInfo ds _ _) as [info [e|]]; [done|].
    by destruct (json_Marshal_Info info).
  - apply dec_stable in Hmf.
    destruct (decide (http.FormValue r "block" ≠ EmptyString)) as [Hbl|Hbl].
    + rewrite decide_False by (by intros [_ ?]).
      by destruct (ds_GetBlock ds _) as [data [e|]].
    + apply dec_stable in Hbl. by rewrite decide_True.
Qed.

Lemma handleDELETE_calls ds r w :
  hcalls (handleDELETE ds r w)
  = [CallRemoveCID (http.FormValue r "cid")
       (metaOfQuery "cid" (url.Query (http.URL r)))].
Proof. unfold handleDELETE. by destruct (ds_RemoveCID ds _ _). Qed.

Lemma handlePUT_calls_any ds r w :
  hcalls (handlePUT ds r w)
  = match rd_err (http.ReqBody r) with
    | Some _ => []
    | None => [CallReceiveBlock (http.FormValue r "sid")
                 (http.FormValue r "hash") (rd_data (http.ReqBody r))]
    end.
Proof.
  unfold handlePUT, ioutil_ReadAll.
  destruct (rd_err (http.ReqBody r)); [done|].
  cbn zeta. repeat case_decide; by rewrite ?writeError_calls.
Qed.

(** The four methods the handler knows, and the rest. *)
Lemma handler_cases ds r :
  (http.Method r = "POST"
   ∧ HTTPRemoteHandler ds r = handlePOST ds r http.NewResponseWriter)
  ∨ (http.Method r = "PUT"
     ∧ HTTPRemoteHandler ds r = handlePUT ds r http.NewResponseWriter)
  ∨ (http.Method r = "GET"
     ∧ HTTPRemoteHandler ds r = handleGET ds r http.NewResponseWriter)
  ∨ (http.Method r = "DELETE"
     ∧ HTTPRemoteHandler ds r = handleDELETE ds r http.NewResponseWriter)
  ∨ (http.Method r ≠ "POST" ∧ http.Method r ≠ "PUT"
     ∧ http.Method r ≠ "GET" ∧ http.Method r ≠ "DELETE"
     ∧ HTTPRemoteHandler ds r = returned [] http.NewResponseWriter).
Proof.
  unfold HTTPRemoteHandler.
  repeat case_decide; naive_solver.
Qed.

(** A request with a method other than POST, PUT, GET and DELETE falls
    through the switch: the [Dsync] is not called, nothing is written, and
    the answer is an empty 200. *)
Theorem handler_unknown_method ds r :
  http.Method r ≠ "POST" → http.Method r ≠ "PUT" →
  http.Method r ≠ "GET" → http.Method r ≠ "DELETE" →
  hcalls (HTTPRemoteHandler ds r) = []
  ∧ serve ds r = ok {| http.StatusCode := http.StatusOK;
                       http.ResHeader := ∅;
                       http.Body := bytes_NewBuffer EmptyString |}.
Proof.
  intros Hpost Hput Hget Hdelete.
  destruct (handler_cases ds r) as [[? _]|[[? _]|[[? _]|[[? _]|(_&_&_&_&Hrest)]]]];
    try done.
  unfold serve. by rewrite Hrest.
Qed.

(** The handler makes at most one call on the [Dsync] for a request, and the
    call is the one of the request's method: a GET only ever reads, only a
    POST opens a session, only a PUT stores a block, only a DELETE
    removes. *)
Theorem handler_one_call_of_its_method ds r :
  (length (hcalls (HTTPRemoteHandler ds r)) ≤ 1)%nat
  ∧ Forall (λ c, callMethod c = http.Method r) (hcalls (HTTPRemoteHandler ds r)).
Proof.
  destruct (handler_cases ds r)
    as [[Hm ->]|[[Hm ->]|[[Hm ->]|[[Hm ->]|(_&_&_&_& ->)]]]].
  - rewrite handlePOST_calls.
    destruct (json_Decode_Info (http.ReqBody r)) as [info [e|]]; simpl;
      split; (lia || by repeat constructor).
  - rewrite handlePUT_calls_any.
    destruct (rd_err (http.ReqBody r)); simpl;
      split; (lia || by repeat constructor).
  - rewrite handleGET_calls.
    repeat case_decide; simpl; split; (lia || by repeat constructor).
  - rewrite handleDELETE_calls. simpl. split; [lia|by repeat constructor].
  - simpl. split; [lia|constructor].
Qed.

(** The handler panics in one situation only: a PUT whose body it could
    read and for which [ReceiveBlock] reports a failure without an error. On
    every other request it returns, whatever the [Dsync] answers. *)
Theorem handler_panics_only_on_failure_without_error ds r :
  hpanic (HTTPRemoteHandler ds r) = true
  ↔ http.Method r = "PUT"
    ∧ rd_err (http.ReqBody r) = None
    ∧ let res := ds_ReceiveBlock ds (http.FormValue r "sid")
                   (http.FormValue r "hash") (rd_data (http.ReqBody r)) in
      Status res ≠ StatusOk ∧ Err res = None.
Proof.
  destruct (handler_cases ds r)
    as [[Hm ->]|[[Hm ->]|[[Hm ->]|[[Hm ->]|(_&Hput&_&_& ->)]]]].
  - split; [|rewrite Hm; by intros [? _]].
    unfold handlePOST.
    destruct (json_Decode_Info (http.ReqBody r)) as [info [e|]]; [done|].
    destruct (ds_NewReceiveSession ds _ _ _) as [[sid diff] [e|]]; [done|].
    by destruct (json_Encode_Manifest diff).
  - unfold handlePUT, ioutil_ReadAll.
    destruct (rd_err (http.ReqBody r)) as [e|]; [by split; [|intros (_&?&_)]|].
    cbn zeta.
    destruct (ds_ReceiveBlock ds _ _ _) as [h s err]. simpl.
    destruct s, err; simpl; split; try done; try by intros (_&_&?&?).
    all: by intros _.
  - split; [|rewrite Hm; by intros [? _]].
    unfold handleGET. repeat case_decide; try done.
    + destruct (ds_GetDagInfo ds _ _) as [info [e|]]; [done|].
      by destruct (json_Marshal_Info info).
    + by destruct (ds_GetBlock ds _) as [data [e|]].
  - split; [|rewrite Hm; by intros [? _]].
    unfold handleDELETE. by destruct (ds_RemoveCID ds _ _).
  - split; [done|]. by intros [? _].
Qed.

(** Every answer of the handler has status 200, 400 or 500. *)
Theorem handler_status_codes ds r :
  let code := http.StatusCode (http.response (hw (HTTPRemoteHandler ds r))) in
  code = http.StatusOK ∨ code = http.StatusBadRequest
  ∨ code = http.StatusInternalServerError.
Proof.
  cbn zeta.
  destruct (handler_cases ds r)
    as [[Hm ->]|[[Hm ->]|[[Hm ->]|[[Hm ->]|(_&_&_&_& ->)]]]].
  - unfold handlePOST.
    destruct (json_Decode_Info (http.ReqBody r)) as [info [e|]]; [by right; left|].
    destruct (ds_NewReceiveSession ds _ _ _) as [[sid diff] [e|]];
      [by right; left|].
    destruct (json_Encode_Manifest diff); by left.
  - unfold handlePUT, ioutil_ReadAll.
    destruct (rd_err (http.ReqBody r)) as [e|]; [by right; left|].
    cbn zeta. repeat case_decide; rewrite ?writeError_status; auto.
  - unfold handleGET. repeat case_decide.
    + by right; left.
    + destruct (ds_GetDagInfo ds _ _) as [info [e|]]; [by right; right|].
      destruct (json_Marshal_Info info); [by left|by right; right].
    + destruct (ds_GetBlock ds _) as [data [e|]]; [by right; right|by left].
  - unfold handleDELETE.
    destruct (ds_RemoveCID ds _ _); [by right; right|by left].
  - by left.
Qed.

(** The metadata the handler hands to the [Dsync] is the query of the
    request without the key the operation keeps for itself ([pin],
    [manifest], [cid]): that key is never in it, and every other key of the
    query is, with the first of its values. *)
Theorem handler_meta_is_rest_of_query ds r :
  Forall (λ c, match callMeta c with
               | None => True
               | Some (reserved, meta) =>
                   meta !! reserved = None
                   ∧ ∀ key, key ≠ reserved →
                       meta !! key
                       = (λ _, url.Get (url.Query (http.URL r)) key)
                           <$> url.Query (http.URL r) !! key
               end)
         (hcalls (HTTPRemoteHandler ds r)).
Proof.
  assert (∀ reserved,
            metaOfQuery reserved (url.Query (http.URL r)) !! reserved = None
            ∧ ∀ key, key ≠ reserved →
                metaOfQuery reserved (url.Query (http.URL r)) !! key
                = (λ _, url.Get (url.Query (http.URL r)) key)
                    <$> url.Query (http.URL r) !! key)
    as Hmeta.
  { intros reserved. split.
    - rewrite metaOfQuery_lookup. by rewrite decide_True.
    - intros key Hkey. rewrite metaOfQuery_lookup, decide_False by done.
      by destruct (url.Query (http.URL r) !! key). }
  destruct (handler_cases ds r)
    as [[Hm ->]|[[Hm ->]|[[Hm ->]|[[Hm ->]|(_&_&_&_& ->)]]]].
  - rewrite handlePOST_calls.
    destruct (json_Decode_Info (http.ReqBody r)) as [info [e|]];
      repeat constructor; apply Hmeta.
  - rewrite handlePUT_calls_any.
    destruct (rd_err (http.ReqBody r)); by repeat constructor.
  - rewrite handleGET_calls.
    repeat case_decide; repeat constructor; apply Hmeta.
  - rewrite handleDELETE_calls. repeat constructor; apply Hmeta.
  - constructor.
Qed.

End handler_facts.

Section round_trips.
Context `{Externals}.

(** ** What the handler reads of a query written with [Values.Encode] *)

Lemma metaOfQuery_setAll_any reserved (q : url.Values) val
    (meta : gmap string string) :
  metaOfQuery reserved (setAll (url.Set_ q reserved val) meta)
  = delete reserved meta ∪ metaOfQuery reserved q.
Proof.
  apply map_eq. intros k.
  rewrite lookup_union, !metaOfQuery_lookup.
  unfold url.Get. rewrite setAll_lookup.
  case_decide as Hk.
  - subst. by rewrite lookup_delete_eq.
  - rewrite lookup_delete_ne by done.
    unfold url.Set_. rewrite lookup_insert_ne by done.
    destruct (meta !! k); simpl; [by destruct (q !! k)|].
    by rewrite (left_id_L None _).
Qed.

Lemma queried_call reserved val (q q' : url.Values) (meta : gmap string string) :
  q' = setAll (url.Set_ q reserved val) meta →
  url.Get q' reserved = default val (meta !! reserved)
  ∧ metaOfQuery reserved q' = delete reserved meta ∪ metaOfQuery reserved q.
Proof.
  intros ->. split.
  - by rewrite Get_setAll, Get_Set.
  - apply metaOfQuery_setAll_any.
Qed.

Lemma delete_absent (meta : gmap string string) key :
  meta !! key = None → delete key meta = meta.
Proof. apply delete_id. Qed.

(** ** Fetching a DAG info *)

(** [GetDagInfo] through the handler, whatever the arguments. *)
Lemma GetDagInfo_serve ds rem id meta req :
  getDagInfoRequest rem id meta = ok req →
  http.FormValue req "manifest" ≠ EmptyString →
  GetDagInfo (serve ds) rem id meta
  = match ds_GetDagInfo ds (http.FormValue req "manifest")
            (metaOfQuery "manifest" (url.Query (http.URL req))) with
    | (info, None) =>
        match json_Marshal_Info info with
        | ok text =>
            let '(info', err) := json_Decode_Info (bytes_NewBuffer text) in
            (Some info', err)
        | fail e =>
            (None, Some (errorString ("remote error: 500 " +:+ Error e)))
        end
    | (_, Some e) =>
        (None, Some (errorString ("remote error: 500 " +:+ Error e)))
    end.
Proof.
  intros Hreq Hmf. unfold GetDagInfo. rewrite Hreq.
  apply getDagInfoRequest_ok in Hreq as (u & _ & Hm & _).
  unfold serve. rewrite (handler_GET _ _ Hm). unfold handleGET.
  rewrite decide_False by (by intros [? _]). rewrite decide_True by done.
  destruct (ds_GetDagInfo ds _ _) as [info [e|]]; [done|].
  by destruct (json_Marshal_Info info).
Qed.

(** The caller of [GetDagInfo] gets the info the receiver has for the
    identifier, as far as JSON carries it: the handler asks the [Dsync] for
    the caller's identifier with the caller's metadata (laid over the
    parameters of the client's own URL), and the client decodes the very
    text the handler encoded. *)
Theorem GetDagInfo_round_trip ds rem id meta req u info text :
  id ≠ EmptyString →
  meta !! "manifest" = None →
  getDagInfoRequest rem id meta = ok req →
  url.Parse (URL rem) = ok u →
  ds_GetDagInfo ds id (meta ∪ metaOfQuery "manifest" (url.Query u))
  = (info, None) →
  json_Marshal_Info info = ok text →
  hcalls (HTTPRemoteHandler ds req)
  = [CallGetDagInfo id (meta ∪ metaOfQuery "manifest" (url.Query u))]
  ∧ GetDagInfo (serve ds) rem id meta
    = (Some (json_Decode_Info (bytes_NewBuffer text)).1,
       (json_Decode_Info (bytes_NewBuffer text)).2).
Proof.
  intros Hid Hmeta Hreq Hu Hinfo Htext.
  destruct (getDagInfoRequest_arguments _ _ _ _ Hmeta Hreq)
    as (u' & Hu' & Hmf & Hmeta').
  assert (u' = u) as -> by congruence.
  pose proof Hreq as (_ & _ & Hm & _)%getDagInfoRequest_ok.
  split.
  - rewrite (handler_GET _ _ Hm), handleGET_calls, Hmf, Hmeta'.
    by rewrite decide_True.
  - rewrite (GetDagInfo_serve ds _ _ _ _ Hreq) by (by rewrite Hmf).
    rewrite Hmf, Hmeta', Hinfo, Htext.
    by destruct (json_Decode_Info (bytes_NewBuffer text)).
Qed.


(** [GetDagInfo] with the empty identifier never reaches the receiver's
    [GetDagInfo]: the handler takes an empty [manifest] parameter for a
    missing one. It answers 400 without a call, unless the query has a
    [block] parameter (from the metadata or the client's URL): then it
    serves that block. *)
Theorem GetDagInfo_empty_id ds rem meta req :
  meta !! "manifest" = None →
  getDagInfoRequest rem EmptyString meta = ok req →
  let blockID := http.FormValue req "block" in
  (blockID = EmptyString →
   hcalls (HTTPRemoteHandler ds req) = []
   ∧ GetDagInfo (serve ds) rem EmptyString meta
     = (None,
        Some (errorString
                ("remote error: 400 "
                 +:+ "either manifest or block query params are required"))))
  ∧ (blockID ≠ EmptyString →
     hcalls (HTTPRemoteHandler ds req) = [CallGetBlock blockID])
  ∧ (∀ val, meta !! "block" = Some val → blockID = val).
Proof.
  intros Hmeta Hreq. cbn zeta.
  destruct (getDagInfoRequest_arguments _ _ _ _ Hmeta Hreq)
    as (u & Hu & Hmf & _).
  pose proof Hreq as (u' & _ & Hm & _ & _ & Hq)%getDagInfoRequest_ok.
  rewrite (handler_GET _ _ Hm), handleGET_calls, Hmf.
  rewrite decide_False by (by intros ?).
  refine (conj _ (conj _ _)).
  - intros Hbl. rewrite Hbl. split; [done|].
    unfold GetDagInfo. rewrite Hreq. unfold serve.
    rewrite (handler_GET _ _ Hm). unfold handleGET.
    by rewrite decide_True by (by rewrite Hmf, Hbl).
  - intros Hbl. by rewrite decide_True.
  - intros val Hval. unfold http.FormValue. by rewrite Hq, Get_setAll, Hval.
Qed.

(** ** Fetching a block *)

(** The caller of [GetBlock] gets the bytes the receiver has for the
    identifier, byte for byte, or the text of the receiver's error; this for
    a client URL without query or fragment and an identifier that needs no
    escaping. *)
Theorem GetBlock_round_trip ds rem id req :
  id ≠ EmptyString →
  contains (is_byte "?") (URL rem) = false →
  contains (is_byte "#") (URL rem) = false →
  url.unreserved id →
  getBlockRequest rem id = ok req →
  hcalls (HTTPRemoteHandler ds req) = [CallGetBlock id]
  ∧ GetBlock (serve ds) rem id
    = match ds_GetBlock ds id with
      | (data, None) => (data, None)
      | (_, Some e) =>
          (EmptyString, Some (errorString ("remote error: 500 " +:+ Error e)))
      end.
Proof.
  intros Hid Hq Hf Hplain Hreq.
  destruct (getBlockRequest_arguments _ _ _ Hq Hf Hplain Hreq) as (Hm & Hbl & Hmf).
  split.
  - rewrite (handler_GET _ _ Hm), handleGET_calls, Hmf, Hbl.
    rewrite decide_False by (by intros ?). by rewrite decide_True.
  - unfold GetBlock. rewrite Hreq. unfold serve.
    rewrite (handler_GET _ _ Hm). unfold handleGET. rewrite Hmf, Hbl.
    rewrite decide_False by (by intros [_ ?]).
    rewrite decide_False by (by intros ?).
    by destruct (ds_GetBlock ds id) as [data [e|]].
Qed.

(** [GetBlock] with the empty identifier is answered 400 by the handler,
    which does not call the [Dsync]; the caller gets the handler's message
    as an error. *)
Theorem GetBlock_empty_id ds rem req :
  contains (is_byte "?") (URL rem) = false →
  contains (is_byte "#") (URL rem) = false →
  getBlockRequest rem EmptyString = ok req →
  hcalls (HTTPRemoteHandler ds req) = []
  ∧ GetBlock (serve ds) rem EmptyString
    = (EmptyString,
       Some (errorString
               ("remote error: 400 "
                +:+ "either manifest or block query params are required"))).
Proof.
  intros Hq Hf Hreq.
  assert (url.unreserved EmptyString) as Hplain by done.
  destruct (getBlockRequest_arguments _ _ _ Hq Hf Hplain Hreq) as (Hm & Hbl & Hmf).
  split.
  - rewrite (handler_GET _ _ Hm), handleGET_calls, Hmf, Hbl.
    by rewrite !decide_False by (by intros ?).
  - unfold GetBlock. rewrite Hreq. unfold serve.
    rewrite (handler_GET _ _ Hm). unfold handleGET. rewrite Hmf, Hbl.
    by rewrite decide_True.
Qed.

(** ** Removing *)

(** [RemoveCID] succeeds exactly when the receiver's [RemoveCID] does, and
    the receiver is asked to remove the caller's identifier with the caller's
    metadata (laid over the parameters of the client's own URL). The handler
    does not look at the identifier: an empty one is passed on like any
    other. *)
Theorem RemoveCID_round_trip ds rem id meta req u :
  meta !! "cid" = None →
  removeCIDRequest rem id meta = ok req →
  url.Parse (URL rem) = ok u →
  let meta' := meta ∪ metaOfQuery "cid" (url.Query u) in
  hcalls (HTTPRemoteHandler ds req) = [CallRemoveCID id meta']
  ∧ (RemoveCID (serve ds) rem id meta = None ↔ ds_RemoveCID ds id meta' = None).
Proof.
  intros Hmeta Hreq Hu. cbn zeta.
  destruct (removeCIDRequest_arguments _ _ _ _ Hmeta Hreq)
    as (u' & Hu' & Hcid & Hmeta').
  assert (u' = u) as Heq by congruence. subst u'.
  destruct (RemoveCID_serve ds _ _ _ _ Hreq) as [Hcalls Hremove].
  cbn zeta in *. rewrite Hcid, Hmeta' in *. split; [done|].
  rewrite Hremove. destruct (ds_RemoveCID ds _ _); [|done].
  by case_decide.
Qed.

(** An entry of the metadata under [cid] takes the place of the identifier:
    the receiver is asked to remove that entry, and the result of
    [RemoveCID] is the same whatever identifier the caller names. *)
Theorem RemoveCID_meta_cid_overrides rem meta val :
  meta !! "cid" = Some val →
  (∀ id req u ds,
     removeCIDRequest rem id meta = ok req →
     url.Parse (URL rem) = ok u →
     hcalls (HTTPRemoteHandler ds req)
     = [CallRemoveCID val (delete "cid" meta ∪ metaOfQuery "cid" (url.Query u))])
  ∧ (∀ (Do : http.RoundTripper) id id',
       RemoveCID Do rem id meta = RemoveCID Do rem id' meta).
Proof.
  intros Hval. split.
  - intros id req u ds Hreq Hu.
    pose proof Hreq as (u' & Hu' & Hm & _ & _ & Hq)%removeCIDRequest_ok.
    assert (u' = u) as Heq by congruence. subst u'.
    destruct (queried_call _ _ _ _ _ Hq) as [Hget Hmeta].
    rewrite Hval in Hget. simpl in Hget.
    rewrite (handler_DELETE _ _ Hm), handleDELETE_calls.
    unfold http.FormValue. by rewrite Hget, Hmeta.
  - intros Do id id'. unfold RemoveCID, removeCIDRequest.
    destruct (url.Parse (URL rem)) as [u|]; [|done]. cbn.
    assert (setAll (url.Set_ (url.Query u) "cid" id) meta
            = setAll (url.Set_ (url.Query u) "cid" id') meta) as ->; [|done].
    apply map_eq. intros k. rewrite !setAll_lookup.
    destruct (meta !! k) eqn:Hk; [done|].
    unfold url.Set_. rewrite !lookup_insert_ne; [done|congruence..].
Qed.

(** ** Opening a session *)

(** [NewReceiveSession] through the handler, whatever the arguments. *)
Lemma NewReceiveSession_serve ds rem info pinOnComplete meta req :
  newReceiveSessionRequest rem info pinOnComplete meta = ok req →
  let refused e :=
    (EmptyString, None,
     Some (errorString ("remote response: 400 " +:+ Error e))) in
  let answered sid body :=
    (sid, Some (json_Decode_Manifest (bytes_NewBuffer body)).1,
     (json_Decode_Manifest (bytes_NewBuffer body)).2) in
  NewReceiveSession (serve ds) rem info pinOnComplete meta
  = match json_Decode_Info (http.ReqBody req) with
    | (_, Some e) => refused e
    | (info', None) =>
        match ds_NewReceiveSession ds info'
                (bool_decide (http.FormValue req "pin" = "true"))
                (metaOfQuery "pin" (url.Query (http.URL req))) with
        | (_, _, Some e) => refused e
        | (sid, diff, None) =>
            match json_Encode_Manifest diff with
            | ok body => answered sid body
            | fail _ => answered sid EmptyString
            end
        end
    end.
Proof.
  intros Hreq. cbn zeta. unfold NewReceiveSession. rewrite Hreq.
  apply newReceiveSessionRequest_ok in Hreq as (text & u & _ & _ & Hm & _).
  unfold serve. rewrite (handler_POST _ _ Hm). unfold handlePOST.
  destruct (json_Decode_Info (http.ReqBody req)) as [info' [e|]]; [done|].
  destruct (ds_NewReceiveSession ds _ _ _) as [[sid diff] [e|]]; [done|].
  destruct (json_Encode_Manifest diff) as [body|e]; simpl.
  - unfold http.HeaderGet.
    rewrite lookup_insert_ne by (intros ?; discriminate).
    rewrite lookup_insert_eq. simpl.
    change (EmptyString +:+ body) with body.
    by destruct (json_Decode_Manifest (bytes_NewBuffer body)).
  - unfold http.HeaderGet.
    rewrite lookup_insert_ne by (intros ?; discriminate).
    rewrite lookup_insert_eq. simpl.
    by destruct (json_Decode_Manifest (bytes_NewBuffer EmptyString)).
Qed.


(** A session the receiver refuses reaches the caller as an error whose text
    holds the status, 400, and the text of the receiver's error; the caller
    gets no session id and no manifest, also when the receiver returned some
    beside its error. The same holds when the handler cannot decode the
    info, in which case the receiver is not asked at all. *)
Theorem NewReceiveSession_refused ds rem info pinOnComplete meta req u text :
  meta !! "pin" = None →
  newReceiveSessionRequest rem info pinOnComplete meta = ok req →
  url.Parse (URL rem) = ok u →
  json_Marshal_Info info = ok text →
  let refused e :=
    NewReceiveSession (serve ds) rem info pinOnComplete meta
    = (EmptyString, None,
       Some (errorString ("remote response: 400 " +:+ Error e))) in
  match json_Decode_Info (bytes_NewBuffer (text +:+ newline)) with
  | (_, Some e) => hcalls (HTTPRemoteHandler ds req) = [] ∧ refused e
  | (info', None) =>
      ∀ sid diff e,
        ds_NewReceiveSession ds info' pinOnComplete
          (meta ∪ metaOfQuery "pin" (url.Query u)) = (sid, diff, Some e) →
        refused e
  end.
Proof.
  intros Hmeta Hreq Hu Htext. cbn zeta.
  pose proof (NewReceiveSession_serve ds _ _ _ _ _ Hreq) as Hserve.
  cbn zeta in Hserve. rewrite Hserve.
  pose proof Hreq as (text' & u' & Htext' & Hu' & Hm & Hb & _ & Hq)
                       %newReceiveSessionRequest_ok.
  assert (text' = text) as Heqt by congruence. subst text'.
  assert (u' = u) as Hequ by congruence. subst u'.
  destruct (queried_call _ _ _ _ _ Hq) as [Hget Hmeta'].
  rewrite Hmeta in Hget. simpl in Hget.
  rewrite (handler_POST _ _ Hm), handlePOST_calls.
  unfold http.FormValue. rewrite Hb, Hget, Hmeta', (delete_absent _ _ Hmeta).
  assert (bool_decide (fmt_t pinOnComplete = "true") = pinOnComplete) as ->
    by (by destruct pinOnComplete).
  destruct (json_Decode_Info (bytes_NewBuffer (text +:+ newline)))
    as [info' [e|]]; [done|].
  intros sid diff e Hds. by rewrite Hds.
Qed.

(** With an entry of the metadata under [pin], the receiver's flag is
    decided by that entry (set exactly when the entry reads [true]) and not
    by the caller's argument, and the entry itself is not part of the
    metadata the receiver gets. *)
Theorem NewReceiveSession_meta_pin_decides ds rem info pinOnComplete meta val
    req u :
  meta !! "pin" = Some val →
  newReceiveSessionRequest rem info pinOnComplete meta = ok req →
  url.Parse (URL rem) = ok u →
  hcalls (HTTPRemoteHandler ds req)
  = match json_Decode_Info (http.ReqBody req) with
    | (info', None) =>
        [CallNewReceiveSession info' (bool_decide (val = "true"))
           (delete "pin" meta ∪ metaOfQuery "pin" (url.Query u))]
    | (_, Some _) => []
    end.
Proof.
  intros Hval Hreq Hu.
  pose proof Hreq as (text & u' & _ & Hu' & Hm & _ & _ & Hq)
                       %newReceiveSessionRequest_ok.
  assert (u' = u) as Hequ by congruence. subst u'.
  destruct (queried_call _ _ _ _ _ Hq) as [Hget Hmeta'].
  rewrite Hval in Hget. simpl in Hget.
  rewrite (handler_POST _ _ Hm), handlePOST_calls.
  unfold http.FormValue. by rewrite Hget, Hmeta'.
Qed.

(** ** A client URL that has a query of its own

    [NewReceiveSession], [GetDagInfo] and [RemoveCID] add their parameters
    to the query of the client's URL. [ReceiveBlock] and [GetBlock] append
    ['?'] and their parameters to the URL as a text: after a query that is
    already there, the appended text becomes part of its last value. *)

Lemma QueryUnescape_QueryEscape_app v t :
  url.QueryUnescape (url.QueryEscape v +:+ t)
  = (String.append v) <$> url.QueryUnescape t.
Proof.
  induction v as [|c v IH].
  - change (url.QueryEscape EmptyString +:+ t) with t.
    destruct (url.QueryUnescape t); reflexivity.
  - change (url.QueryEscape (String c v))
      with (url.escape_byte c +:+ url.QueryEscape v).
    rewrite string_app_assoc, QueryUnescape_escape_byte, IH.
    destruct (url.QueryUnescape t); reflexivity.
Qed.

Lemma QueryUnescape_unreserved s : url.unreserved s → url.QueryUnescape s = Some s.
Proof.
  intros Hs. unfold url.unreserved in Hs.
  rewrite <-Hs at 1. apply QueryUnescape_QueryEscape.
Qed.

(** The pair a query [k=v] turns into when a text is appended to it. *)
Lemma parsePair_appended m k v tail tail' :
  contains (is_byte ";") tail = false →
  url.QueryUnescape tail = Some tail' →
  url.parsePair m (url.QueryEscape k +:+ "=" +:+ url.QueryEscape v +:+ tail)
  = url.appendValue m k (v +:+ tail').
Proof.
  intros Hclean Htail. unfold url.parsePair.
  rewrite !contains_app, !(QueryEscape_no_byte ";"), Hclean by done. simpl.
  destruct (decide _) as [Hempty|_].
  { exfalso. destruct (url.QueryEscape k); discriminate. }
  change (url.QueryEscape k +:+ "=" +:+ url.QueryEscape v +:+ tail)
    with (url.QueryEscape k +:+ String "=" (url.QueryEscape v +:+ tail)).
  rewrite cut_at by (done || by apply QueryEscape_no_byte).
  by rewrite QueryUnescape_QueryEscape, QueryUnescape_QueryEscape_app, Htail.
Qed.

Lemma Parse_query_then_appended base query tail u :
  contains (is_byte "?") base = false →
  contains (is_byte "#") base = false →
  contains (is_byte "#") query = false →
  contains (is_byte "#") tail = false →
  url.Parse ((base +:+ "?" +:+ query) +:+ tail) = ok u →
  url.RawQuery u = query +:+ tail.
Proof.
  intros Hq Hf Hquery Htail Hparse.
  apply (Parse_appended_query base (query +:+ tail) u Hq Hf).
  - by rewrite contains_app, Hquery, Htail.
  - rewrite <-Hparse. f_equal.
    rewrite string_app_assoc. done.
Qed.

Lemma unreserved_no_separator s :
  url.unreserved s → contains url.is_separator s = false.
Proof. intros <-. apply QueryEscape_no_separator. Qed.

Lemma literal_no_separator :
  contains url.is_separator "=" = false
  ∧ contains url.is_separator "?sid=" = false
  ∧ contains url.is_separator "?block=" = false.
Proof.
  unfold url.is_separator. simpl. by rewrite !andb_false_r.
Qed.

Lemma appended_query_pieces k v sid hash :
  url.unreserved sid → url.unreserved hash →
  url.ParseQuery ((url.QueryEscape k +:+ "=" +:+ url.QueryEscape v)
                  +:+ "?sid=" +:+ sid +:+ "&hash=" +:+ hash)
  = url.appendValue (url.appendValue ∅ k (v +:+ "?sid=" +:+ sid)) "hash" hash.
Proof.
  intros Hsid Hhash.
  assert ((url.QueryEscape k +:+ "=" +:+ url.QueryEscape v)
          +:+ "?sid=" +:+ sid +:+ "&hash=" +:+ hash
          = String.concat "&"
              [url.QueryEscape k +:+ "=" +:+ url.QueryEscape v
               +:+ "?sid=" +:+ sid;
               url.QueryEscape "hash" +:+ "=" +:+ url.QueryEscape hash]) as ->.
  { rewrite Hhash. cbn [String.concat]. by rewrite !string_app_assoc. }
  destruct literal_no_separator as (Heq & Hsidlit & _).
  rewrite ParseQuery_concat.
  2:{ repeat constructor; [|apply encoded_pair_clean].
      by rewrite !contains_app, !QueryEscape_no_separator, Heq, Hsidlit,
        (unreserved_no_separator sid). }
  cbn [foldl].
  rewrite (parsePair_appended _ k v ("?sid=" +:+ sid) ("?sid=" +:+ sid)).
  - by rewrite parsePair_encoded.
  - rewrite contains_app. by rewrite (unreserved_no_byte ";" sid).
  - change ("?sid=" +:+ sid) with (String "?" (String "s" (String "i" (String "d" (String "=" sid))))).
    cbn [url.QueryUnescape]. simpl.
    by rewrite (QueryUnescape_unreserved sid).
Qed.

(** When the client's URL already has a query parameter, the session id of
    [ReceiveBlock] does not reach the receiver: the handler finds no [sid]
    parameter and asks the receiver about the empty session, and the
    parameter of the URL comes out with the appended text in its value. *)
Theorem ReceiveBlock_url_with_query ds base k v sid hash data req :
  contains (is_byte "?") base = false →
  contains (is_byte "#") base = false →
  k ≠ "sid" → k ≠ "hash" →
  url.unreserved sid → url.unreserved hash →
  receiveBlockRequest
    {| URL := base +:+ "?" +:+ url.QueryEscape k +:+ "=" +:+ url.QueryEscape v |}
    sid hash data = ok req →
  http.FormValue req k = v +:+ "?sid=" +:+ sid
  ∧ hcalls (HTTPRemoteHandler ds req) = [CallReceiveBlock EmptyString hash data].
Proof.
  intros Hq Hf Hksid Hkhash Hsid Hhash Hreq.
  pose proof Hreq as [Hm Hbody]%receiveBlockRequest_ok.
  assert (url.Query (http.URL req)
          = url.appendValue (url.appendValue ∅ k (v +:+ "?sid=" +:+ sid))
              "hash" hash) as Hquery.
  { revert Hreq. unfold receiveBlockRequest, http.NewRequest. cbn [URL].
    destruct (url.Parse _) as [u|e] eqn:Hparse; [|done]. cbn. intros [= <-].
    unfold url.Query. cbn [http.URL http.SetRequestHeader].
    apply Parse_query_then_appended in Hparse; [|done..| |].
    - rewrite Hparse. by apply appended_query_pieces.
    - by rewrite !contains_app, !(QueryEscape_no_byte "#").
    - rewrite !contains_app.
      by rewrite (unreserved_no_byte "#" sid), (unreserved_no_byte "#" hash). }
  assert (http.FormValue req k = v +:+ "?sid=" +:+ sid
          ∧ http.FormValue req "sid" = EmptyString
          ∧ http.FormValue req "hash" = hash) as (Hk & Hs & Hh).
  { unfold http.FormValue, url.Get. rewrite Hquery. unfold url.appendValue.
    split_and!.
    - rewrite lookup_insert_ne, lookup_insert_eq by done.
      by rewrite lookup_empty.
    - by rewrite !lookup_insert_ne, lookup_empty by done.
    - rewrite lookup_insert_eq, lookup_insert_ne, lookup_empty by done. done. }
  split; [done|].
  rewrite (handler_PUT _ _ Hm), (handlePUT_calls _ _ _ Hbody). by rewrite Hs, Hh.
Qed.

(** When the client's URL already has a query parameter, [GetBlock] fails
    for every identifier: the handler finds neither a [block] nor a
    [manifest] parameter, answers 400 and does not ask the receiver. *)
Theorem GetBlock_url_with_query ds base k v id req :
  contains (is_byte "?") base = false →
  contains (is_byte "#") base = false →
  k ≠ "block" → k ≠ "manifest" →
  url.unreserved id →
  let rem := {| URL := base +:+ "?" +:+ url.QueryEscape k
                       +:+ "=" +:+ url.QueryEscape v |} in
  getBlockRequest rem id = ok req →
  hcalls (HTTPRemoteHandler ds req) = []
  ∧ GetBlock (serve ds) rem id
    = (EmptyString,
       Some (errorString
               ("remote error: 400 "
                +:+ "either manifest or block query params are required"))).
Proof.
  intros Hq Hf Hkb Hkm Hid rem Hreq.
  assert (http.Method req = "GET"
          ∧ url.Query (http.URL req)
            = url.appendValue ∅ k (v +:+ "?block=" +:+ id)) as [Hm Hquery].
  { revert Hreq. unfold getBlockRequest, http.NewRequest. cbn [URL rem].
    destruct (url.Parse _) as [u|e] eqn:Hparse; [|done]. cbn. intros [= <-].
    split; [done|]. unfold url.Query. cbn [http.URL].
    apply Parse_query_then_appended in Hparse; [|done..| |].
    - rewrite Hparse. unfold url.ParseQuery.
      destruct literal_no_separator as (Heq & _ & Hblk).
      rewrite split_on_clean.
      2:{ by rewrite !contains_app, !QueryEscape_no_separator, Heq, Hblk,
            (unreserved_no_separator id). }
      cbn [foldl]. rewrite string_app_assoc, string_app_assoc.
      apply (parsePair_appended _ k v ("?block=" +:+ id)).
      + rewrite contains_app. by rewrite (unreserved_no_byte ";" id).
      + change ("?block=" +:+ id)
          with (String "?" (String "b" (String "l" (String "o" (String "c"
                 (String "k" (String "=" id))))))).
        cbn [url.QueryUnescape]. simpl.
        by rewrite (QueryUnescape_unreserved id).
    - by rewrite !contains_app, !(QueryEscape_no_byte "#").
    - rewrite contains_app. by rewrite (unreserved_no_byte "#" id). }
  assert (http.FormValue req "manifest" = EmptyString
          ∧ http.FormValue req "block" = EmptyString) as [Hmf Hbl].
  { unfold http.FormValue, url.Get. rewrite Hquery. unfold url.appendValue.
    by rewrite !lookup_insert_ne, !lookup_empty by done. }
  split.
  - rewrite (handler_GET _ _ Hm), handleGET_calls, Hmf, Hbl.
    by rewrite !decide_False by (by intros ?).
  - unfold GetBlock. rewrite Hreq. unfold serve.
    rewrite (handler_GET _ _ Hm). unfold handleGET. rewrite Hmf, Hbl.
    by rewrite decide_True.
Qed.

(** ** What counts as success, and what becomes of a transport error *)

(** The client takes status 200 alone for success: [RemoveCID] returns nil,
    and the other calls return without an error, exactly when the request
    went out, the remote answered 200 and (where there is a body to read or
    decode) reading or decoding it gave no error. Any other status, 201 and
    204 included, is an error. *)
Theorem client_success_is_200 (Do : http.RoundTripper) rem info pinOnComplete
    id meta :
  (RemoveCID Do rem id meta = None
   ↔ ∃ req res, removeCIDRequest rem id meta = ok req ∧ Do req = ok res
                ∧ http.StatusCode res = http.StatusOK)
  ∧ ((GetBlock Do rem id).2 = None
     ↔ ∃ req res, getBlockRequest rem id = ok req ∧ Do req = ok res
                  ∧ http.StatusCode res = http.StatusOK
                  ∧ rd_err (http.Body res) = None)
  ∧ ((GetDagInfo Do rem id meta).2 = None
     ↔ ∃ req res, getDagInfoRequest rem id meta = ok req ∧ Do req = ok res
                  ∧ http.StatusCode res = http.StatusOK
                  ∧ (json_Decode_Info (http.Body res)).2 = None)
  ∧ ((NewReceiveSession Do rem info pinOnComplete meta).2 = None
     ↔ ∃ req res, newReceiveSessionRequest rem info pinOnComplete meta = ok req
                  ∧ Do req = ok res
                  ∧ http.StatusCode res = http.StatusOK
                  ∧ (json_Decode_Manifest (http.Body res)).2 = None).
Proof.
  unfold RemoveCID, GetBlock, GetDagInfo, NewReceiveSession.
  split_and!.
  - destruct (removeCIDRequest rem id meta) as [req|e];
      [|split; [done|by intros (?&?&?&_)]].
    destruct (Do req) as [res|e] eqn:Hdo;
      [|split; [done|intros (?&?&[= <-]&?&_); congruence]].
    destruct (decide (http.StatusCode res ≠ http.StatusOK)) as [Hcode|Hcode].
    + split; [by case_decide|].
      intros (?&?&[= <-]&?&?). congruence.
    + apply dec_stable in Hcode. split; [|done]. intros _. by exists req, res.
  - destruct (getBlockRequest rem id) as [req|e];
      [|split; [done|by intros (?&?&?&_)]].
    destruct (Do req) as [res|e] eqn:Hdo;
      [|split; [done|intros (?&?&[= <-]&?&_); congruence]].
    destruct (decide (http.StatusCode res ≠ http.StatusOK)) as [Hcode|Hcode].
    + split; [done|]. intros (?&?&[= <-]&?&?&_). congruence.
    + apply dec_stable in Hcode. simpl. split.
      * intros Hread. by exists req, res.
      * intros (?&?&[= <-]&?&_&?). congruence.
  - destruct (getDagInfoRequest rem id meta) as [req|e];
      [|split; [done|by intros (?&?&?&_)]].
    destruct (Do req) as [res|e] eqn:Hdo;
      [|split; [done|intros (?&?&[= <-]&?&_); congruence]].
    destruct (decide (http.StatusCode res ≠ http.StatusOK)) as [Hcode|Hcode].
    + split; [done|]. intros (?&?&[= <-]&?&?&_). congruence.
    + apply dec_stable in Hcode.
      destruct (json_Decode_Info (http.Body res)) as [info' err] eqn:Hdec.
      simpl. split.
      * intros ->. exists req, res. by rewrite Hdec.
      * intros (?&?&[= <-]&?&_&Herr).
        assert (x0 = res) as -> by congruence. by rewrite Hdec in Herr.
  - destruct (newReceiveSessionRequest rem info pinOnComplete meta) as [req|e];
      [|split; [done|by intros (?&?&?&_)]].
    destruct (Do req) as [res|e] eqn:Hdo;
      [|split; [done|intros (?&?&[= <-]&?&_); congruence]].
    destruct (decide (http.StatusCode res ≠ http.StatusOK)) as [Hcode|Hcode].
    + split; [done|]. intros (?&?&[= <-]&?&?&_). congruence.
    + apply dec_stable in Hcode.
      destruct (json_Decode_Manifest (http.Body res)) as [diff err] eqn:Hdec.
      simpl. split.
      * intros ->. exists req, res. by rewrite Hdec.
      * intros (?&?&[= <-]&?&_&Herr).
        assert (x0 = res) as -> by congruence. by rewrite Hdec in Herr.
Qed.

(** When the transport fails, every call returns the transport's error
    itself, not a copy or a wrapping of it, and no value beside it. *)
Theorem transport_error_is_returned (Do : http.RoundTripper) rem e :
  (∀ req, Do req = fail e) →
  (∀ info pinOnComplete meta req,
     newReceiveSessionRequest rem info pinOnComplete meta = ok req →
     NewReceiveSession Do rem info pinOnComplete meta
     = (EmptyString, None, Some e))
  ∧ (∀ sid hash data req,
       receiveBlockRequest rem sid hash data = ok req →
       ReceiveBlock Do rem sid hash data
       = {| Hash := hash; Status := StatusErrored; Err := Some e |})
  ∧ (∀ id meta req,
       getDagInfoRequest rem id meta = ok req →
       GetDagInfo Do rem id meta = (None, Some e))
  ∧ (∀ id req,
       getBlockRequest rem id = ok req →
       GetBlock Do rem id = (EmptyString, Some e))
  ∧ (∀ id meta req,
       removeCIDRequest rem id meta = ok req →
       RemoveCID Do rem id meta = Some e).
Proof.
  intros Hdo.
  unfold NewReceiveSession, ReceiveBlock, GetDagInfo, GetBlock, RemoveCID.
  split_and!; intros; repeat match goal with
                             | Hreq : _ = ok _ |- _ => rewrite Hreq; clear Hreq
                             end; by rewrite Hdo.
Qed.

End round_trips.

(** * Further worked examples *)

Section further_examples.
Local Existing Instance exampleExternals.

(** ** The handler *)

Lemma handler_unknown_method_witness :
  let r := exampleRequest "PATCH" "sid=session-1&hash=QmBlock" ∅ "data" in
  (http.Method r ≠ "POST" ∧ http.Method r ≠ "PUT"
   ∧ http.Method r ≠ "GET" ∧ http.Method r ≠ "DELETE")
  ∧ hcalls (HTTPRemoteHandler exampleDsync r) = []
  ∧ serve exampleDsync r
    = ok {| http.StatusCode := 200; http.ResHeader := ∅;
            http.Body := bytes_NewBuffer EmptyString |}.
Proof.
  intros r.
  assert (http.Method r ≠ "POST") as Hpost by (vm_compute; discriminate).
  assert (http.Method r ≠ "PUT") as Hput by (vm_compute; discriminate).
  assert (http.Method r ≠ "GET") as Hget by (vm_compute; discriminate).
  assert (http.Method r ≠ "DELETE") as Hdelete by (vm_compute; discriminate).
  split; [by repeat split|].
  exact (handler_unknown_method exampleDsync r Hpost Hput Hget Hdelete).
Defined.

(** ** Opening a session *)


Lemma NewReceiveSession_refused_witness :
  let meta : gmap string string := {["user" := "ada"]} in
  let req := exampleRequest "POST" "pin=true&user=ada"
               {["Content-Type" := "application/json"]} ("{}" +:+ newline) in
  (meta !! "pin" = None
   ∧ newReceiveSessionRequest exampleClient "{}" true meta = ok req
   ∧ url.Parse (URL exampleClient) = ok exampleURL
   ∧ json_Marshal_Info "{}" = ok "{}")
  ∧ NewReceiveSession (serve refusingDsync) exampleClient "{}" true meta
    = (EmptyString, None,
       Some (errorString "remote response: 400 quota exceeded")).
Proof.
  intros meta req.
  assert (meta !! "pin" = None) as Hpin by (vm_compute; reflexivity).
  assert (newReceiveSessionRequest exampleClient "{}" true meta = ok req) as Hreq
    by (vm_compute; reflexivity).
  assert (url.Parse (URL exampleClient) = ok exampleURL) as Hu
    by (vm_compute; reflexivity).
  split; [by repeat split|].
  exact (@NewReceiveSession_refused exampleExternals refusingDsync
           exampleClient "{}" true meta req exampleURL "{}"
           Hpin Hreq Hu eq_refl
           "session-0" ("{}" +:+ newline) (errorString "quota exceeded") eq_refl).
Defined.

Lemma NewReceiveSession_meta_pin_decides_witness :
  let meta : gmap string string := {["pin" := "yes"]} in
  let req := exampleRequest "POST" "pin=yes"
               {["Content-Type" := "application/json"]} ("{}" +:+ newline) in
  (meta !! "pin" = Some "yes"
   ∧ newReceiveSessionRequest exampleClient "{}" true meta = ok req
   ∧ url.Parse (URL exampleClient) = ok exampleURL)
  ∧ hcalls (HTTPRemoteHandler exampleDsync req)
    = [CallNewReceiveSession ("{}" +:+ newline) false ∅].
Proof.
  intros meta req.
  assert (meta !! "pin" = Some "yes") as Hpin by (vm_compute; reflexivity).
  assert (newReceiveSessionRequest exampleClient "{}" true meta = ok req) as Hreq
    by (vm_compute; reflexivity).
  assert (url.Parse (URL exampleClient) = ok exampleURL) as Hu
    by (vm_compute; reflexivity).
  split; [by repeat split|].
  pose proof (@NewReceiveSession_meta_pin_decides exampleExternals exampleDsync
                exampleClient "{}" true meta "yes" req exampleURL Hpin Hreq Hu)
    as Hcalls.
  rewrite Hcalls. vm_compute. reflexivity.
Defined.

(** ** Pushing a block *)

Lemma ReceiveBlock_over_http_plain_witness :
  let req := exampleRequest "PUT" "sid=session-1&hash=QmBlock"
               {["Content-Type" := "application/octet-stream"]} "data" in
  (contains (is_byte "?") (URL exampleClient) = false
   ∧ contains (is_byte "#") (URL exampleClient) = false
   ∧ url.unreserved "session-1" ∧ url.unreserved "QmBlock"
   ∧ receiveBlockRequest exampleClient "session-1" "QmBlock" "data" = ok req)
  ∧ hcalls (HTTPRemoteHandler exampleDsync req)
    = [CallReceiveBlock "session-1" "QmBlock" "data"]
  ∧ Status (ReceiveBlock (serve exampleDsync) exampleClient
              "session-1" "QmBlock" "data") = StatusOk.
Proof.
  intros req.
  assert (url.unreserved "session-1") as Hsid by (vm_compute; reflexivity).
  assert (url.unreserved "QmBlock") as Hhash by (vm_compute; reflexivity).
  assert (receiveBlockRequest exampleClient "session-1" "QmBlock" "data" = ok req)
    as Hreq by (vm_compute; reflexivity).
  split; [by repeat split|].
  exact (ReceiveBlock_over_http_plain exampleDsync exampleClient
           "session-1" "QmBlock" "data" req eq_refl eq_refl Hsid Hhash Hreq).
Defined.

Lemma ReceiveBlock_url_with_query_witness :
  let req := exampleRequest "PUT" "token=abc?sid=session-1&hash=QmBlock"
               {["Content-Type" := "application/octet-stream"]} "data" in
  (contains (is_byte "?") "http://remote/dsync" = false
   ∧ contains (is_byte "#") "http://remote/dsync" = false
   ∧ "token" ≠ "sid" ∧ "token" ≠ "hash"
   ∧ url.unreserved "session-1" ∧ url.unreserved "QmBlock"
   ∧ receiveBlockRequest tokenClient "session-1" "QmBlock" "data" = ok req)
  ∧ http.FormValue req "token" = "abc?sid=session-1"
  ∧ hcalls (HTTPRemoteHandler exampleDsync req)
    = [CallReceiveBlock EmptyString "QmBlock" "data"].
Proof.
  intros req.
  assert ("token" ≠ "sid") as Hksid by discriminate.
  assert ("token" ≠ "hash") as Hkhash by discriminate.
  assert (url.unreserved "session-1") as Hsid by (vm_compute; reflexivity).
  assert (url.unreserved "QmBlock") as Hhash by (vm_compute; reflexivity).
  assert (receiveBlockRequest tokenClient "session-1" "QmBlock" "data" = ok req)
    as Hreq by (vm_compute; reflexivity).
  split; [by repeat split|].
  exact (ReceiveBlock_url_with_query exampleDsync "http://remote/dsync"
           "token" "abc" "session-1" "QmBlock" "data" req
           eq_refl eq_refl Hksid Hkhash Hsid Hhash Hreq).
Defined.

(** ** Fetching *)

Lemma GetDagInfo_round_trip_witness :
  let meta : gmap string string := {["user" := "ada"]} in
  let req := exampleRequest "GET" "manifest=QmRoot&user=ada" ∅ EmptyString in
  ("QmRoot" ≠ EmptyString
   ∧ meta !! "manifest" = None
   ∧ getDagInfoRequest exampleClient "QmRoot" meta = ok req
   ∧ url.Parse (URL exampleClient) = ok exampleURL
   ∧ ds_GetDagInfo exampleDsync "QmRoot"
       (meta ∪ metaOfQuery "manifest" (url.Query exampleURL)) = ("{}", None)
   ∧ json_Marshal_Info "{}" = ok "{}")
  ∧ hcalls (HTTPRemoteHandler exampleDsync req) = [CallGetDagInfo "QmRoot" meta]
  ∧ GetDagInfo (serve exampleDsync) exampleClient "QmRoot" meta
    = (Some "{}", None).
Proof.
  intros meta req.
  assert ("QmRoot" ≠ EmptyString) as Hid by discriminate.
  assert (meta !! "manifest" = None) as Hmeta by (vm_compute; reflexivity).
  assert (getDagInfoRequest exampleClient "QmRoot" meta = ok req) as Hreq
    by (vm_compute; reflexivity).
  assert (url.Parse (URL exampleClient) = ok exampleURL) as Hu
    by (vm_compute; reflexivity).
  split; [by repeat split|].
  destruct (@GetDagInfo_round_trip exampleExternals exampleDsync exampleClient
              "QmRoot" meta req exampleURL "{}" "{}"
              Hid Hmeta Hreq Hu eq_refl eq_refl) as [Hcalls Hinfo].
  split; [|exact Hinfo].
  rewrite Hcalls. vm_compute. reflexivity.
Defined.


Lemma GetDagInfo_empty_id_witness :
  let meta : gmap string string := {["block" := "QmBlock"]} in
  let req := exampleRequest "GET" "block=QmBlock&manifest=" ∅ EmptyString in
  let bare := exampleRequest "GET" "manifest=" ∅ EmptyString in
  (meta !! "manifest" = None
   ∧ getDagInfoRequest exampleClient EmptyString meta = ok req
   ∧ getDagInfoRequest exampleClient EmptyString ∅ = ok bare)
  ∧ hcalls (HTTPRemoteHandler exampleDsync req) = [CallGetBlock "QmBlock"]
  ∧ hcalls (HTTPRemoteHandler exampleDsync bare) = []
  ∧ GetDagInfo (serve exampleDsync) exampleClient EmptyString ∅
    = (None,
       Some (errorString ("remote error: 400 "
               +:+ "either manifest or block query params are required"))).
Proof.
  intros meta req bare.
  assert (meta !! "manifest" = None) as Hmeta by (vm_compute; reflexivity).
  assert (getDagInfoRequest exampleClient EmptyString meta = ok req) as Hreq
    by (vm_compute; reflexivity).
  assert (getDagInfoRequest exampleClient EmptyString ∅ = ok bare) as Hbare
    by (vm_compute; reflexivity).
  split; [by repeat split|].
  destruct (@GetDagInfo_empty_id exampleExternals exampleDsync exampleClient
              meta req Hmeta Hreq) as (_ & Hblock & Hval).
  assert ((∅ : gmap string string) !! "manifest" = None) as Hempty
    by (vm_compute; reflexivity).
  destruct (@GetDagInfo_empty_id exampleExternals exampleDsync exampleClient
              ∅ bare Hempty Hbare) as (Hnone & _ & _).
  split.
  - rewrite Hblock; rewrite (Hval "QmBlock" eq_refl); [reflexivity|discriminate].
  - apply Hnone. vm_compute. reflexivity.
Defined.

Lemma GetBlock_round_trip_witness :
  let req := exampleRequest "GET" "block=QmBlock" ∅ EmptyString in
  ("QmBlock" ≠ EmptyString
   ∧ contains (is_byte "?") (URL exampleClient) = false
   ∧ contains (is_byte "#") (URL exampleClient) = false
   ∧ url.unreserved "QmBlock"
   ∧ getBlockRequest exampleClient "QmBlock" = ok req)
  ∧ hcalls (HTTPRemoteHandler exampleDsync req) = [CallGetBlock "QmBlock"]
  ∧ GetBlock (serve exampleDsync) exampleClient "QmBlock" = ("block", None).
Proof.
  intros req.
  assert ("QmBlock" ≠ EmptyString) as Hid by discriminate.
  assert (url.unreserved "QmBlock") as Hplain by (vm_compute; reflexivity).
  assert (getBlockRequest exampleClient "QmBlock" = ok req) as Hreq
    by (vm_compute; reflexivity).
  split; [by repeat split|].
  exact (GetBlock_round_trip exampleDsync exampleClient "QmBlock" req
           Hid eq_refl eq_refl Hplain Hreq).
Defined.

Lemma GetBlock_empty_id_witness :
  let req := exampleRequest "GET" "block=" ∅ EmptyString in
  (contains (is_byte "?") (URL exampleClient) = false
   ∧ contains (is_byte "#") (URL exampleClient) = false
   ∧ getBlockRequest exampleClient EmptyString = ok req)
  ∧ hcalls (HTTPRemoteHandler exampleDsync req) = []
  ∧ GetBlock (serve exampleDsync) exampleClient EmptyString
    = (EmptyString,
       Some (errorString ("remote error: 400 "
               +:+ "either manifest or block query params are required"))).
Proof.
  intros req.
  assert (getBlockRequest exampleClient EmptyString = ok req) as Hreq
    by (vm_compute; reflexivity).
  split; [by repeat split|].
  exact (GetBlock_empty_id exampleDsync exampleClient req eq_refl eq_refl Hreq).
Defined.

Lemma GetBlock_url_with_query_witness :
  let req := exampleRequest "GET" "token=abc?block=QmBlock" ∅ EmptyString in
  (contains (is_byte "?") "http://remote/dsync" = false
   ∧ contains (is_byte "#") "http://remote/dsync" = false
   ∧ "token" ≠ "block" ∧ "token" ≠ "manifest"
   ∧ url.unreserved "QmBlock"
   ∧ getBlockRequest tokenClient "QmBlock" = ok req)
  ∧ hcalls (HTTPRemoteHandler exampleDsync req) = []
  ∧ GetBlock (serve exampleDsync) tokenClient "QmBlock"
    = (EmptyString,
       Some (errorString ("remote error: 400 "
               +:+ "either manifest or block query params are required"))).
Proof.
  intros req.
  assert ("token" ≠ "block") as Hkb by discriminate.
  assert ("token" ≠ "manifest") as Hkm by discriminate.
  assert (url.unreserved "QmBlock") as Hplain by (vm_compute; reflexivity).
  assert (getBlockRequest tokenClient "QmBlock" = ok req) as Hreq
    by (vm_compute; reflexivity).
  split; [by repeat split|].
  exact (GetBlock_url_with_query exampleDsync "http://remote/dsync"
           "token" "abc" "QmBlock" req eq_refl eq_refl Hkb Hkm Hplain Hreq).
Defined.

(** ** Removing *)

Lemma RemoveCID_round_trip_witness :
  let meta : gmap string string := {["user" := "ada"]} in
  let req := exampleRequest "DELETE" "cid=QmRoot&user=ada" ∅ EmptyString in
  (meta !! "cid" = None
   ∧ removeCIDRequest exampleClient "QmRoot" meta = ok req
   ∧ url.Parse (URL exampleClient) = ok exampleURL)
  ∧ hcalls (HTTPRemoteHandler exampleDsync req) = [CallRemoveCID "QmRoot" meta]
  ∧ RemoveCID (serve exampleDsync) exampleClient "QmRoot" meta = None.
Proof.
  intros meta req.
  assert (meta !! "cid" = None) as Hmeta by (vm_compute; reflexivity).
  assert (removeCIDRequest exampleClient "QmRoot" meta = ok req) as Hreq
    by (vm_compute; reflexivity).
  assert (url.Parse (URL exampleClient) = ok exampleURL) as Hu
    by (vm_compute; reflexivity).
  split; [by repeat split|].
  destruct (@RemoveCID_round_trip exampleExternals exampleDsync exampleClient
              "QmRoot" meta req exampleURL Hmeta Hreq Hu) as [Hcalls Hnil].
  split; [|by apply Hnil].
  rewrite Hcalls. vm_compute. reflexivity.
Defined.

Lemma RemoveCID_meta_cid_overrides_witness :
  let meta : gmap string string := {["cid" := "QmOther"]} in
  let req := exampleRequest "DELETE" "cid=QmOther" ∅ EmptyString in
  (meta !! "cid" = Some "QmOther"
   ∧ removeCIDRequest exampleClient "QmRoot" meta = ok req
   ∧ url.Parse (URL exampleClient) = ok exampleURL)
  ∧ hcalls (HTTPRemoteHandler exampleDsync req) = [CallRemoveCID "QmOther" ∅]
  ∧ RemoveCID (serve keepingDsync) exampleClient "QmRoot" meta
    = RemoveCID (serve keepingDsync) exampleClient "QmElse" meta.
Proof.
  intros meta req.
  assert (meta !! "cid" = Some "QmOther") as Hmeta by (vm_compute; reflexivity).
  assert (removeCIDRequest exampleClient "QmRoot" meta = ok req) as Hreq
    by (vm_compute; reflexivity).
  assert (url.Parse (URL exampleClient) = ok exampleURL) as Hu
    by (vm_compute; reflexivity).
  split; [by repeat split|].
  destruct (@RemoveCID_meta_cid_overrides exampleExternals exampleClient
              meta "QmOther" Hmeta) as [Hcall Hsame].
  split; [|exact (Hsame (serve keepingDsync) "QmRoot" "QmElse")].
  rewrite (Hcall "QmRoot" req exampleURL exampleDsync Hreq Hu).
  vm_compute. reflexivity.
Defined.

(** ** A remote that cannot be reached *)

Lemma transport_error_is_returned_witness :
  (∀ req, unreachable req = fail ErrConnectionRefused)
  ∧ RemoveCID unreachable exampleClient "QmRoot" ∅ = Some ErrConnectionRefused
  ∧ GetBlock unreachable exampleClient "QmBlock"
    = (EmptyString, Some ErrConnectionRefused)
  ∧ ReceiveBlock unreachable exampleClient "session-1" "QmBlock" "data"
    = {| Hash := "QmBlock"; Status := StatusErrored;
         Err := Some ErrConnectionRefused |}.
Proof.
  assert (∀ req, unreachable req = fail ErrConnectionRefused) as Hdo by done.
  split; [exact Hdo|].
  destruct (@transport_error_is_returned exampleExternals unreachable
              exampleClient ErrConnectionRefused Hdo)
    as (_ & Hblock & _ & Hget & Hremove).
  split; [|split].
  - apply (Hremove "QmRoot" ∅
             (exampleRequest "DELETE" "cid=QmRoot" ∅ EmptyString)).
    vm_compute. reflexivity.
  - apply (Hget "QmBlock" (exampleRequest "GET" "block=QmBlock" ∅ EmptyString)).
    vm_compute. reflexivity.
  - apply (Hblock "session-1" "QmBlock" "data"
             (exampleRequest "PUT" "sid=session-1&hash=QmBlock"
                {["Content-Type" := "application/octet-stream"]} "data")).
    vm_compute. reflexivity.
Defined.

End further_examples.
